(** * Botato bank AI services: a shallow embedding of [ai.py] and [app.py]

    The service is Python glue around a hosted chat-completion endpoint.
    The embedding follows the two source files:

    - [PyStr]  Python [str] values as sequences of code points, with the
               string methods the code calls ([strip], [startswith],
               [split], [rsplit], slicing);
    - [Py]     the dynamically typed values that flow through the code
               (what [json.loads] and Flask's [get_json] produce), the
               exceptions the interpreter raises on them, and number
               formatting ([:.2f], [:+.2f]);
    - [Json]   the grammar accepted by [json.loads];
    - [Ai]     [validate_national_id] and [BankChatbot] of [ai.py];
    - [App]    the Flask routes of [app.py];
    - [Spec]   the words of the specification that the statements use.

    The hosted model is an oracle from requests to answers, and every
    call to it is logged, so that statements can say which calls a route
    makes. Interpreter resource limits (recursion depth, the integer
    digit limit of recent CPython versions) are outside the model. *)

From Stdlib Require Import String Ascii List ZArith NArith QArith Bool Lia.
From Stdlib Require Import DecimalString.
From Stdlib Require Strings.Byte.
Import ListNotations.

Set Implicit Arguments.
Set Warnings "-register-all".

(* ================================================================== *)
(** * Python strings *)
(* ================================================================== *)

Module PyStr.

(** A Python [str] is a sequence of Unicode code points. *)
Definition char := N.
Definition str := list char.

(** Source literals are written as Rocq strings (UTF-8 bytes) and decoded
    to code points. *)
Fixpoint utf8 (bs : list N) : str :=
  match bs with
  | [] => []
  | b0 :: r0 =>
      if (b0 <? 128)%N then b0 :: utf8 r0
      else match r0 with
      | [] => []
      | b1 :: r1 =>
          if (b0 <? 224)%N then ((b0 - 192) * 64 + (b1 - 128))%N :: utf8 r1
          else match r1 with
          | [] => []
          | b2 :: r2 =>
              if (b0 <? 240)%N
              then ((b0 - 224) * 4096 + (b1 - 128) * 64 + (b2 - 128))%N :: utf8 r2
              else match r2 with
              | [] => []
              | b3 :: r3 =>
                  ((b0 - 240) * 262144 + (b1 - 128) * 4096
                   + (b2 - 128) * 64 + (b3 - 128))%N :: utf8 r3
              end
          end
      end
  end.

Definition lit (s : string) : str :=
  utf8 (map N_of_ascii (list_ascii_of_string s)).

Definition NEWLINE : char := 10%N.
Definition SPACE : char := 32%N.
Definition DQUOTE : char := 34%N.

Fixpoint str_eqb (a b : str) : bool :=
  match a, b with
  | [], [] => true
  | x :: a', y :: b' => (x =? y)%N && str_eqb a' b'
  | _, _ => false
  end.

(** [str.isspace] on one code point: the Unicode whitespace that
    [str.strip()] removes. *)
Definition isspace (c : char) : bool :=
  ((9 <=? c) && (c <=? 13) || (28 <=? c) && (c <=? 32)
   || (c =? 133) || (c =? 160) || (c =? 5760)
   || (8192 <=? c) && (c <=? 8202)
   || (c =? 8232) || (c =? 8233) || (c =? 8239) || (c =? 8287)
   || (c =? 12288))%N.

Fixpoint lstrip (s : str) : str :=
  match s with
  | [] => []
  | c :: r => if isspace c then lstrip r else s
  end.

Fixpoint rstrip (s : str) : str :=
  match s with
  | [] => []
  | c :: r =>
      match rstrip r with
      | [] => if isspace c then [] else [c]
      | r' => c :: r'
      end
  end.

(** [s.strip()] *)
Definition strip (s : str) : str := rstrip (lstrip s).

(** [s.startswith(p)] *)
Fixpoint startswith (p s : str) : bool :=
  match p, s with
  | [], _ => true
  | _ :: _, [] => false
  | a :: p', b :: s' => (a =? b)%N && startswith p' s'
  end.

(** [s.split(sep, 1)] for a non-empty separator: cut at the leftmost
    occurrence. *)
Fixpoint split1 (sep s : str) : list str :=
  if startswith sep s then [[]; skipn (length sep) s]
  else match s with
       | [] => [[]]
       | c :: r =>
           match split1 sep r with
           | h :: t => (c :: h) :: t
           | [] => []
           end
       end.

(** [s.rsplit(sep, 1)] for a non-empty separator: cut at the rightmost
    occurrence. *)
Fixpoint rsplit1 (sep s : str) : list str :=
  match s with
  | [] => [[]]
  | c :: r =>
      match rsplit1 sep r with
      | [h; t] => [c :: h; t]
      | _ => if startswith sep s then [[]; skipn (length sep) s] else [s]
      end
  end.

(** [parts[0]] and [parts[-1]] on the lists the two splits return (never
    empty). *)
Definition first_part (parts : list str) : str := hd [] parts.
Definition last_part (parts : list str) : str := last parts [].

(** [s[-4:]]: the last four items, or all of them when there are fewer. *)
Definition last4 {A} (s : list A) : list A := skipn (length s - 4) s.

(** [sep.join(parts)] *)
Fixpoint join (sep : str) (parts : list str) : str :=
  match parts with
  | [] => []
  | [p] => p
  | p :: rest => p ++ sep ++ join sep rest
  end.

(** [needle in haystack] for strings. *)
Fixpoint contains (needle hay : str) : bool :=
  startswith needle hay ||
  match hay with
  | [] => false
  | _ :: r => contains needle r
  end.

(** Decimal digits of a natural number, as [str(n)] prints them. *)
Definition digits (n : N) : str :=
  lit (NilZero.string_of_uint (N.to_uint n)).

End PyStr.
Import PyStr.

(* ================================================================== *)
(** * Python values, exceptions and number formatting *)
(* ================================================================== *)

Module Py.

(** The exception classes the code can meet. [UpstreamError] stands for
    whatever the outbound client raises (network failure, HTTP error),
    [HTTPException] for the aborts of the web framework. All of them are
    subclasses of [Exception]. *)
Inductive exn :=
| AttributeError | TypeError | ValueError | KeyError | OverflowError
| UpstreamError (code : N)
| HTTPException (status : Z).

Inductive outcome (A : Type) :=
| Return (a : A)
| Raise (e : exn).
Arguments Return {A} a.
Arguments Raise {A} e.

Definition bind {A B} (c : outcome A) (k : A -> outcome B) : outcome B :=
  match c with
  | Return a => k a
  | Raise e => Raise e
  end.

Declare Scope py_scope.
Delimit Scope py_scope with py.
Notation "x <- c ;; k" := (bind c (fun x => k))
  (at level 61, c at next level, right associativity) : py_scope.
Open Scope py_scope.

(** [for x in xs: ...] with a body that may raise. *)
Fixpoint mapM {A B} (f : A -> outcome B) (xs : list A) : outcome (list B) :=
  match xs with
  | [] => Return []
  | x :: r => y <- f x ;; ys <- mapM f r ;; Return (y :: ys)
  end.

(** A Python [float] (IEEE 754 binary64): zero, infinity, NaN, or
    [(-1)^neg * m * 2^e] with [m < 2^53] and [-1074 <= e <= 971]. *)
Inductive pyfloat :=
| FZero (neg : bool)
| FInf (neg : bool)
| FNan
| FNum (neg : bool) (m : positive) (e : Z).

(** Values as [json.loads] and Flask's [get_json] build them. A [dict]
    keeps its keys in insertion order, each key once. *)
Inductive value :=
| VNone
| VBool (b : bool)
| VInt (z : Z)
| VFloat (f : pyfloat)
| VStr (s : str)
| VList (l : list value)
| VDict (d : list (str * value)).

(** ** Dictionaries *)

Fixpoint dict_get (d : list (str * value)) (k : str) : option value :=
  match d with
  | [] => None
  | (k', v) :: r => if str_eqb k' k then Some v else dict_get r k
  end.

(** [d[k] = v]: overwrite in place, or append a new key. *)
Fixpoint dict_set (d : list (str * value)) (k : str) (v : value)
  : list (str * value) :=
  match d with
  | [] => [(k, v)]
  | (k', v') :: r =>
      if str_eqb k' k then (k', v) :: r else (k', v') :: dict_set r k v
  end.

(** [dict(pairs)]: later pairs win. *)
Definition dict_of_pairs (pairs : list (str * value)) : list (str * value) :=
  fold_left (fun d kv => dict_set d (fst kv) (snd kv)) pairs [].

(** ** Floats *)

Definition round_half_even (n d : Z) : Z :=
  let q := (n / d)%Z in
  match (2 * (n mod d) ?= d)%Z with
  | Lt => q
  | Gt => (q + 1)%Z
  | Eq => if Z.even q then q else (q + 1)%Z
  end.

(** [num / (den * 2^e)] as a fraction of integers. *)
Definition scale (num den e : Z) : Z * Z :=
  if (0 <=? e)%Z then (num, (den * 2 ^ e)%Z) else ((num * 2 ^ (- e))%Z, den).

(** The binary64 nearest to [num / den] (ties to even), for [0 <= num]
    and [0 < den]; overflow gives infinity. *)
Definition float_of_ratio (neg : bool) (num den : Z) : pyfloat :=
  if (num =? 0)%Z then FZero neg
  else
    let e0 := Z.max (Z.log2 num - Z.log2 den - 53) (-1074) in
    let '(n0, d0) := scale num den e0 in
    let e1 := if (2 ^ 53 <=? n0 / d0)%Z then (e0 + 1)%Z else e0 in
    let '(n1, d1) := scale num den e1 in
    let m1 := round_half_even n1 d1 in
    let '(m, e) := if (m1 =? 2 ^ 53)%Z then ((2 ^ 52)%Z, (e1 + 1)%Z)
                   else (m1, e1) in
    if (m =? 0)%Z then FZero neg
    else if (971 <? e)%Z then FInf neg
    else FNum neg (Z.to_pos m) e.

(** [float(text)] for a decimal literal [mant * 10^exp10]. *)
Definition float_of_decimal (neg : bool) (mant : Z) (exp10 : Z) : pyfloat :=
  if (0 <=? exp10)%Z then float_of_ratio neg (mant * 10 ^ exp10)%Z 1%Z
  else float_of_ratio neg mant (10 ^ (- exp10))%Z.

(** [float(z)] for an [int]; too large an [int] raises. *)
Definition float_of_int (z : Z) : outcome pyfloat :=
  match float_of_ratio (z <? 0)%Z (Z.abs z) 1%Z with
  | FInf _ => Raise OverflowError
  | f => Return f
  end.

Definition float_is_zero (f : pyfloat) : bool :=
  match f with FZero _ => true | _ => false end.

(** ** Formatting: [format(x, '.2f')] and [format(x, '+.2f')] *)

Definition MINUS : str := Eval cbv in lit "-".
Definition PLUS : str := Eval cbv in lit "+".
Definition DOT : str := Eval cbv in lit ".".

Definition sign_text (plus neg : bool) : str :=
  if neg then MINUS else if plus then PLUS else [].

Definition two_digits (n : N) : str :=
  if (n <? 10)%N then digits 0 ++ digits n else digits n.

(** [m * 2^e] rounded to two decimals (ties to even on the exact value). *)
Definition fixed2 (m : positive) (e : Z) : str :=
  let '(n, d) := scale (100 * Zpos m) 1 (- e) in
  let c := Z.to_N (round_half_even n d) in
  digits (c / 100) ++ DOT ++ two_digits (c mod 100).

Definition format_float (plus : bool) (f : pyfloat) : str :=
  match f with
  | FNan => sign_text plus false ++ lit "nan"
  | FInf neg => sign_text plus neg ++ lit "inf"
  | FZero neg => sign_text plus neg ++ lit "0.00"
  | FNum neg m e => sign_text plus neg ++ fixed2 m e
  end.

(** [f"{x:.2f}"] ([plus = false]) and [f"{x:+.2f}"] ([plus = true]).
    [int] and [bool] are converted to [float] first; [str] rejects the
    format code, the other types reject any format specification. *)
Definition format_2f (plus : bool) (x : value) : outcome str :=
  match x with
  | VInt z => f <- float_of_int z ;; Return (format_float plus f)
  | VBool b => f <- float_of_int (if b then 1 else 0) ;;
               Return (format_float plus f)
  | VFloat f => Return (format_float plus f)
  | VStr _ => Raise ValueError
  | VNone | VList _ | VDict _ => Raise TypeError
  end.

(** ** Dynamic operations *)

(** [bool(x)] *)
Definition truthy (x : value) : bool :=
  match x with
  | VNone => false
  | VBool b => b
  | VInt z => negb (z =? 0)%Z
  | VFloat f => negb (float_is_zero f)
  | VStr s => match s with [] => false | _ => true end
  | VList l => match l with [] => false | _ => true end
  | VDict d => match d with [] => false | _ => true end
  end.

(** [o.get(k, default)]: only a [dict] has the method. *)
Definition py_get (o : value) (k : str) (default : value) : outcome value :=
  match o with
  | VDict d => Return (match dict_get d k with Some v => v | None => default end)
  | _ => Raise AttributeError
  end.

(** [o[k]] for a string key [k]. *)
Definition py_getitem (o : value) (k : str) : outcome value :=
  match o with
  | VDict d => match dict_get d k with
               | Some v => Return v
               | None => Raise KeyError
               end
  | _ => Raise TypeError
  end.

Definition is_str (k : str) (x : value) : bool :=
  match x with VStr s => str_eqb s k | _ => false end.

(** [k in o] for a string [k]: key of a dict, element of a list,
    substring of a string; other types are not containers. *)
Definition py_in (k : str) (o : value) : outcome bool :=
  match o with
  | VDict d => Return (match dict_get d k with Some _ => true | None => false end)
  | VList l => Return (existsb (is_str k) l)
  | VStr s => Return (contains k s)
  | _ => Raise TypeError
  end.

(** [for x in o]: the items the loop visits. *)
Definition py_iter (o : value) : outcome (list value) :=
  match o with
  | VList l => Return l
  | VDict d => Return (map (fun kv => VStr (fst kv)) d)
  | VStr s => Return (map (fun c => VStr [c]) s)
  | _ => Raise TypeError
  end.

(** [len(o)] *)
Definition py_len (o : value) : outcome N :=
  match o with
  | VList l => Return (N.of_nat (length l))
  | VDict d => Return (N.of_nat (length d))
  | VStr s => Return (N.of_nat (length s))
  | _ => Raise TypeError
  end.

(** [o[-4:]]: strings and lists can be sliced. (A dict rejects the slice
    as a key: [TypeError] up to CPython 3.11, [KeyError] afterwards.) *)
Definition py_last4 (o : value) : outcome value :=
  match o with
  | VStr s => Return (VStr (last4 s))
  | VList l => Return (VList (last4 l))
  | _ => Raise TypeError
  end.

(** [prefix + o] for a string [prefix]. *)
Definition py_str_concat (prefix : str) (o : value) : outcome str :=
  match o with
  | VStr s => Return (prefix ++ s)
  | _ => Raise TypeError
  end.

(** [o.strip()] *)
Definition py_strip (o : value) : outcome str :=
  match o with
  | VStr s => Return (strip s)
  | _ => Raise AttributeError
  end.

Definition int_text (z : Z) : str :=
  if (z <? 0)%Z then MINUS ++ digits (Z.to_N (- z)) else digits (Z.to_N z).

Section Str.

(** [repr] of floats and containers is left to the interpreter. *)
Variable py_repr : value -> str.

(** [str(x)], which is what [f"{x}"] renders. *)
Definition py_str (x : value) : str :=
  match x with
  | VStr s => s
  | VNone => lit "None"
  | VBool true => lit "True"
  | VBool false => lit "False"
  | VInt z => int_text z
  | VFloat _ | VList _ | VDict _ => py_repr x
  end.

End Str.

End Py.
Import Py.

(* ================================================================== *)
(** * The grammar of [json.loads] *)
(* ================================================================== *)

Module Json.

Definition is_ws (c : char) : bool :=
  ((c =? 32) || (c =? 9) || (c =? 10) || (c =? 13))%N.

Fixpoint skip_ws (s : str) : str :=
  match s with
  | [] => []
  | c :: r => if is_ws c then skip_ws r else s
  end.

Definition is_digit (c : char) : bool := ((48 <=? c) && (c <=? 57))%N.

Definition hex_val (c : char) : option N :=
  if is_digit c then Some (c - 48)%N
  else if ((97 <=? c) && (c <=? 102))%N then Some (c - 87)%N
  else if ((65 <=? c) && (c <=? 70))%N then Some (c - 55)%N
  else None.

Definition hex4 (a b c d : char) : option N :=
  match hex_val a, hex_val b, hex_val c, hex_val d with
  | Some x, Some y, Some z, Some w => Some (((x * 16 + y) * 16 + z) * 16 + w)%N
  | _, _, _, _ => None
  end.

(** The character after a backslash, for the one-letter escapes. *)
Definition simple_escape (e : char) : option char :=
  if (e =? 34)%N then Some 34%N          (* quote *)
  else if (e =? 92)%N then Some 92%N     (* backslash *)
  else if (e =? 47)%N then Some 47%N     (* slash *)
  else if (e =? 98)%N then Some 8%N      (* b *)
  else if (e =? 102)%N then Some 12%N    (* f *)
  else if (e =? 110)%N then Some 10%N    (* n *)
  else if (e =? 114)%N then Some 13%N    (* r *)
  else if (e =? 116)%N then Some 9%N     (* t *)
  else None.

Definition is_high_surrogate (u : N) : bool := ((55296 <=? u) && (u <=? 56319))%N.
Definition is_low_surrogate (u : N) : bool := ((56320 <=? u) && (u <=? 57343))%N.
Definition join_surrogates (hi lo : N) : N :=
  (65536 + (hi - 55296) * 1024 + (lo - 56320))%N.

Definition push (c : char) (r : option (str * str)) : option (str * str) :=
  match r with
  | Some (t, rest) => Some (c :: t, rest)
  | None => None
  end.

(** The body of a string literal, from just after the opening quote to the
    closing one (strict mode: raw control characters are rejected). *)
Fixpoint scan_string (s : str) : option (str * str) :=
  match s with
  | [] => None
  | c :: r =>
      if (c =? 34)%N then Some ([], r)
      else if (c =? 92)%N then
        match r with
        | [] => None
        | e :: r1 =>
            if (e =? 117)%N then
              match r1 with
              | h1 :: h2 :: h3 :: h4 :: r2 =>
                  match hex4 h1 h2 h3 h4 with
                  | None => None
                  | Some u =>
                      let plain := push u (scan_string r2) in
                      if is_high_surrogate u then
                        match r2 with
                        | b :: l :: k1 :: k2 :: k3 :: k4 :: r3 =>
                            if ((b =? 92) && (l =? 117))%N then
                              match hex4 k1 k2 k3 k4 with
                              | None => None
                              | Some u2 =>
                                  if is_low_surrogate u2
                                  then push (join_surrogates u u2) (scan_string r3)
                                  else plain
                              end
                            else plain
                        | _ => plain
                        end
                      else plain
                  end
              | _ => None
              end
            else
              match simple_escape e with
              | Some c' => push c' (scan_string r1)
              | None => None
              end
        end
      else if (c <? 32)%N then None
      else push c (scan_string r)
  end.

Fixpoint span_digits (s : str) : list N * str :=
  match s with
  | [] => ([], [])
  | c :: r =>
      if is_digit c
      then let '(ds, rest) := span_digits r in ((c - 48)%N :: ds, rest)
      else ([], s)
  end.

Definition number_of_digits (ds : list N) : Z :=
  fold_left (fun acc d => (acc * 10 + Z.of_N d)%Z) ds 0%Z.

(** Numbers: an optional minus sign, then [0] or a digit string without a
    leading zero, then an optional fraction (a dot and at least one digit)
    and an optional exponent ([e] or [E], an optional sign, at least one
    digit). Without a fraction or an exponent the literal is an [int],
    otherwise a [float]. *)
Definition scan_fraction (s : str) : list N * str :=
  match s with
  | dot :: f :: _ =>
      if ((dot =? 46)%N && is_digit f)%bool then span_digits (tl s)
      else ([], s)
  | _ => ([], s)
  end.

(** The digits of an exponent; without a digit there is no exponent and
    the number ends before the [e]. *)
Definition exponent_digits (whole : str) (eneg : bool) (s : str)
  : option Z * str :=
  match span_digits s with
  | ([], _) => (None, whole)
  | (eds, rest) =>
      let n := number_of_digits eds in
      (Some (if eneg then (- n)%Z else n), rest)
  end.

Definition scan_exponent (s : str) : option Z * str :=
  match s with
  | e :: r =>
      if ((e =? 101) || (e =? 69))%N then
        match r with
        | sg :: r' => if (sg =? 45)%N then exponent_digits s true r'
                      else if (sg =? 43)%N then exponent_digits s false r'
                      else exponent_digits s false r
        | [] => (None, s)
        end
      else (None, s)
  | [] => (None, s)
  end.

Definition scan_number (s : str) : option (value * str) :=
  let '(neg, s1) :=
    match s with
    | c :: r => if (c =? 45)%N then (true, r) else (false, s)
    | [] => (false, s)
    end in
  match s1 with
  | [] => None
  | c :: r =>
      if negb (is_digit c) then None
      else
        let '(ids, s2) := if (c =? 48)%N then ([0%N], r) else span_digits s1 in
        let '(fds, s3) := scan_fraction s2 in
        let '(ex, s4) := scan_exponent s3 in
        match fds, ex with
        | [], None =>
            let n := number_of_digits ids in
            Some (VInt (if neg then (- n)%Z else n), s4)
        | _, _ =>
            let mant := number_of_digits (ids ++ fds) in
            let e10 := match ex with Some e => e | None => 0%Z end in
            Some (VFloat (float_of_decimal neg mant
                            (e10 - Z.of_nat (length fds))), s4)
        end
  end.

Inductive parsed (A : Type) :=
| Ok (a : A) (rest : str)
| Bad
| OutOfFuel.
Arguments Ok {A} a rest.
Arguments Bad {A}.
Arguments OutOfFuel {A}.

Definition NULL : str := Eval cbv in lit "null".
Definition TRUE : str := Eval cbv in lit "true".
Definition FALSE : str := Eval cbv in lit "false".
Definition NAN : str := Eval cbv in lit "NaN".
Definition INFINITY : str := Eval cbv in lit "Infinity".
Definition NEG_INFINITY : str := Eval cbv in lit "-Infinity".

(** Constants and numbers: the tokens without nested values. *)
Definition scan_atom (s : str) : parsed value :=
  if startswith NULL s then Ok VNone (skipn 4 s)
  else if startswith TRUE s then Ok (VBool true) (skipn 4 s)
  else if startswith FALSE s then Ok (VBool false) (skipn 5 s)
  else if startswith NAN s then Ok (VFloat FNan) (skipn 3 s)
  else if startswith INFINITY s then Ok (VFloat (FInf false)) (skipn 8 s)
  else if startswith NEG_INFINITY s then Ok (VFloat (FInf true)) (skipn 9 s)
  else match scan_number s with
       | Some (v, rest) => Ok v rest
       | None => Bad
       end.

(** One value at the head of [s]; [parse_members] reads the pairs of an
    object from its first key to the closing brace, [parse_elements] the
    items of an array up to the closing bracket. *)
Fixpoint scan_once (fuel : nat) (s : str) : parsed value :=
  match fuel with
  | O => OutOfFuel
  | S f =>
      match s with
      | [] => Bad
      | c :: r =>
          if (c =? 34)%N then
            match scan_string r with
            | Some (t, rest) => Ok (VStr t) rest
            | None => Bad
            end
          else if (c =? 123)%N then
            match skip_ws r with
            | [] => Bad
            | c1 :: r1 =>
                if (c1 =? 125)%N then Ok (VDict []) r1
                else match parse_members f (c1 :: r1) with
                     | Ok pairs rest => Ok (VDict (dict_of_pairs pairs)) rest
                     | Bad => Bad
                     | OutOfFuel => OutOfFuel
                     end
            end
          else if (c =? 91)%N then
            match skip_ws r with
            | [] => Bad
            | c1 :: r1 =>
                if (c1 =? 93)%N then Ok (VList []) r1
                else match parse_elements f (c1 :: r1) with
                     | Ok items rest => Ok (VList items) rest
                     | Bad => Bad
                     | OutOfFuel => OutOfFuel
                     end
            end
          else scan_atom s
      end
  end

with parse_members (fuel : nat) (s : str) : parsed (list (str * value)) :=
  match fuel with
  | O => OutOfFuel
  | S f =>
      match s with
      | [] => Bad
      | q :: r =>
          if negb (q =? 34)%N then Bad
          else match scan_string r with
          | None => Bad
          | Some (k, r1) =>
              match skip_ws r1 with
              | [] => Bad
              | colon :: r2 =>
                  if negb (colon =? 58)%N then Bad
                  else match scan_once f (skip_ws r2) with
                  | Bad => Bad
                  | OutOfFuel => OutOfFuel
                  | Ok v r3 =>
                      match skip_ws r3 with
                      | [] => Bad
                      | d :: r4 =>
                          if (d =? 125)%N then Ok [(k, v)] r4
                          else if (d =? 44)%N then
                            match parse_members f (skip_ws r4) with
                            | Ok pairs rest => Ok ((k, v) :: pairs) rest
                            | Bad => Bad
                            | OutOfFuel => OutOfFuel
                            end
                          else Bad
                      end
                  end
              end
          end
      end
  end

with parse_elements (fuel : nat) (s : str) : parsed (list value) :=
  match fuel with
  | O => OutOfFuel
  | S f =>
      match scan_once f s with
      | Bad => Bad
      | OutOfFuel => OutOfFuel
      | Ok v r1 =>
          match skip_ws r1 with
          | [] => Bad
          | d :: r2 =>
              if (d =? 93)%N then Ok [v] r2
              else if (d =? 44)%N then
                match parse_elements f (skip_ws r2) with
                | Ok items rest => Ok (v :: items) rest
                | Bad => Bad
                | OutOfFuel => OutOfFuel
                end
              else Bad
          end
      end
  end.

(** Fuel that every input gets through with (see [json_loads_fuel]). *)
Definition fuel_for (s : str) : nat := 2 * length s + 2.

Definition BOM : char := 65279%N.

(** [json.loads(s)]: [None] stands for [json.JSONDecodeError]. The whole
    text must be one value, surrounded by optional whitespace.

    This is the grammar alone. The interpreter also gives up on text that
    exhausts its resources, with exceptions that are not
    [JSONDecodeError]: [RecursionError] on nesting about as deep as the
    recursion limit, and, in CPython versions with a limit on the digits
    of an integer, [ValueError] on a longer integer literal. On such text
    [json.loads] raises where this function answers; statements about
    what the code returns are to be read for text within those limits. *)
Definition json_loads (s : str) : option value :=
  match s with
  | c :: _ => if (c =? BOM)%N then None else
      match scan_once (fuel_for s) (skip_ws s) with
      | Ok v rest => match skip_ws rest with [] => Some v | _ => None end
      | _ => None
      end
  | [] => None
  end.

End Json.
Import Json.

(* ================================================================== *)
(** * [ai.py] *)
(* ================================================================== *)

Module Ai.

(** The keyword arguments of [client.chat.completions.create]. *)
Record request := {
  model : str;
  messages : list value;
  max_tokens : Z;
  temperature : Q
}.

(** Code that talks to the endpoint: it may raise, and it leaves a log of
    the calls it made. *)
Definition M (A : Type) : Type := list request -> outcome A * list request.

Definition ret {A} (a : A) : M A := fun log => (Return a, log).
Definition lift {A} (c : outcome A) : M A := fun log => (c, log).
Definition bindM {A B} (c : M A) (k : A -> M B) : M B :=
  fun log =>
    match c log with
    | (Return a, log') => k a log'
    | (Raise e, log') => (Raise e, log')
    end.

(** [try: c except Exception as e: h e] *)
Definition try_except {A} (c : M A) (h : exn -> M A) : M A :=
  fun log =>
    match c log with
    | (Return a, log') => (Return a, log')
    | (Raise e, log') => h e log'
    end.

Notation "x <~ c ;; k" := (bindM c (fun x => k))
  (at level 61, c at next level, right associativity) : py_scope.

Definition VISION_MODEL : str := lit "google/gemini-2.5-flash".
Definition CHAT_MODEL : str := lit "google/gemini-2.5-flash".

Definition quoted (s : str) : str := DQUOTE :: s ++ [DQUOTE].

(** [{"role": role, "content": content}] *)
Definition message (role content : value) : value :=
  VDict [(lit "role", role); (lit "content", content)].

(** [{"valid": ..., "idNumber": ..., "error": ...}] *)
Definition verdict (valid : bool) (idNumber error : value) : value :=
  VDict [(lit "valid", VBool valid); (lit "idNumber", idNumber);
         (lit "error", error)].

(** [base64.b64encode(image_bytes).decode("utf-8")] *)
Definition b64_char (i : N) : char :=
  (if i <? 26 then 65 + i
   else if i <? 52 then 97 + (i - 26)
   else if i <? 62 then 48 + (i - 52)
   else if i =? 62 then 43 else 47)%N.

Fixpoint b64_groups (bs : list N) : str :=
  match bs with
  | [] => []
  | [a] => [b64_char (a / 4); b64_char (a mod 4 * 16); 61; 61]%N
  | [a; b] =>
      [b64_char (a / 4); b64_char (a mod 4 * 16 + b / 16);
       b64_char (b mod 16 * 4); 61]%N
  | a :: b :: c :: r =>
      [b64_char (a / 4); b64_char (a mod 4 * 16 + b / 16);
       b64_char (b mod 16 * 4 + c / 64); b64_char (c mod 64)]%N
      ++ b64_groups r
  end.

Definition b64encode (image_bytes : list Byte.byte) : str :=
  b64_groups (map Byte.to_N image_bytes).

Definition ID_SYSTEM_PROMPT : str :=
  lit "You are an ID card verification system. You analyze images of identification documents. "
  ++ lit "You must determine if the image is a valid Moroccan البطاقة الوطنية (Carte Nationale d'Identité). "
  ++ lit "If it is, extract the CIN number (usually 1-2 letters followed by digits, e.g. AB123456). "
  ++ lit "Respond ONLY with valid JSON, no markdown, no explanation.".

Definition ID_USER_PROMPT : str :=
  lit "Analyze this image. Is it a Moroccan البطاقة الوطنية (national ID card)? "
  ++ lit "Look for indicators like: 'البطاقة الوطنية', 'CARTE NATIONALE', 'ROYAUME DU MAROC', 'المملكة المغربية'. "
  ++ lit "If valid, extract the CIN number. "
  ++ lit "Respond with JSON: {" ++ quoted (lit "valid") ++ lit ": true/false, "
  ++ quoted (lit "idNumber") ++ lit ": " ++ quoted (lit "XX123456")
  ++ lit " or null, " ++ quoted (lit "error") ++ lit ": null or "
  ++ quoted (lit "reason") ++ lit "}".

Definition id_request (image_bytes : list Byte.byte) : request :=
  let base64_image := b64encode image_bytes in
  {| model := VISION_MODEL;
     messages :=
       [ message (VStr (lit "system")) (VStr ID_SYSTEM_PROMPT);
         message (VStr (lit "user"))
           (VList
              [ VDict [(lit "type", VStr (lit "text"));
                       (lit "text", VStr ID_USER_PROMPT)];
                VDict [(lit "type", VStr (lit "image_url"));
                       (lit "image_url",
                        VDict [(lit "url",
                                VStr (lit "data:image/jpeg;base64,"
                                      ++ base64_image));
                               (lit "detail", VStr (lit "high"))])] ]) ];
     max_tokens := 200;
     temperature := 0 |}.

Definition FENCE : str := Eval cbv in lit "```".
Definition PARSE_FAILURE : str := lit "Failed to parse AI response".

(** [raw.split("\n", 1)[-1].rsplit("```", 1)[0].strip()] when [raw] starts
    with a fence, [raw] otherwise. *)
Definition strip_fences (raw : str) : str :=
  if startswith FENCE raw
  then strip (first_part (rsplit1 FENCE (last_part (split1 [NEWLINE] raw))))
  else raw.

(** Lines 66-84 of [validate_national_id]: from the text of the top
    choice to the returned dictionary. Only [json.JSONDecodeError] is
    caught. *)
Definition parse_model_output (content : value) : outcome value :=
  raw <- py_strip content ;;
  let raw := strip_fences raw in
  match json_loads raw with
  | Some result =>
      valid <- py_get result (lit "valid") (VBool false) ;;
      idNumber <- py_get result (lit "idNumber") VNone ;;
      error <- py_get result (lit "error") VNone ;;
      Return (verdict (truthy valid) idNumber error)
  | None => Return (verdict false VNone (VStr PARSE_FAILURE))
  end.

Section Client.

(** The hosted endpoint: for a request, the [content] of the top choice
    of the response ([None] when the model sent no text), or the
    exception the client raises. *)
Variable endpoint : request -> outcome value.

(** [client.chat.completions.create(...)] followed by
    [.choices[0].message.content]. *)
Definition create (req : request) : M value :=
  fun log => (endpoint req, log ++ [req]).

Definition validate_national_id (image_bytes : list Byte.byte) : M value :=
  content <~ create (id_request image_bytes) ;;
  lift (parse_model_output content).

End Client.

Module BankChatbot.

Section Chatbot.

(** [self.client], configured like the module-level client. *)
Variable endpoint : request -> outcome value.

(** [str(x)] of floats and containers (see [py_str]). *)
Variable py_repr : value -> str.

Definition SYSTEM_PROMPT : str :=
  lit "You are Atomic Bank's AI banking assistant. You help customers with their banking questions. "
  ++ lit "You have access to the customer's account information and transaction history provided below. "
  ++ lit "Use this data to answer questions about their balance, recent transactions, spending patterns, etc. "
  ++ lit "Be concise, helpful, and professional. If asked about something outside banking, politely redirect. "
  ++ lit "Always respond in the same language the user writes in (Arabic, French, or English). "
  ++ lit "Never reveal sensitive details like full account numbers — use masked versions (e.g. ***1234). "
  ++ lit "Amounts are in USD unless stated otherwise.".

Definition STARS : str := Eval cbv in lit "***".

(** The mask of an account: three stars, then the last four characters
    of [acc.get('accountNumber', '')]. *)
Definition masked_number (acc : value) : outcome str :=
  number <- py_get acc (lit "accountNumber") (VStr []) ;;
  tail <- py_last4 number ;;
  py_str_concat STARS tail.

(** One line of the accounts loop. *)
Definition account_line (acc : value) : outcome str :=
  masked <- masked_number acc ;;
  type <- py_get acc (lit "type") (VStr (lit "Account")) ;;
  balance <- py_get acc (lit "balance") (VInt 0) ;;
  balance_text <- format_2f false balance ;;
  currency <- py_get acc (lit "currency") (VStr (lit "USD")) ;;
  status <- py_get acc (lit "status") (VStr (lit "Active")) ;;
  Return (lit "  - " ++ py_str py_repr type ++ lit " (" ++ masked
          ++ lit "): " ++ balance_text ++ lit " "
          ++ py_str py_repr currency ++ lit " [Status: "
          ++ py_str py_repr status ++ lit "]").

(** One line of the transactions loop. *)
Definition transaction_line (tx : value) : outcome str :=
  date <- py_get tx (lit "date") (VStr []) ;;
  type <- py_get tx (lit "type") (VStr []) ;;
  amount <- py_get tx (lit "amount") (VInt 0) ;;
  amount_text <- format_2f true amount ;;
  description <- py_get tx (lit "description") (VStr (lit "N/A")) ;;
  balanceAfter <- py_get tx (lit "balanceAfter") (VInt 0) ;;
  balance_text <- format_2f false balanceAfter ;;
  Return (lit "  - [" ++ py_str py_repr date ++ lit "] "
          ++ py_str py_repr type ++ lit ": " ++ amount_text
          ++ lit " USD — " ++ py_str py_repr description
          ++ lit " (Balance after: " ++ balance_text ++ lit ")").

Definition accounts_part (accounts : value) : outcome (list str) :=
  if truthy accounts then
    items <- py_iter accounts ;;
    lines <- mapM account_line items ;;
    Return ((NEWLINE :: lit "Accounts:") :: lines)
  else Return [].

Definition transactions_part (transactions : value) : outcome (list str) :=
  if truthy transactions then
    count <- py_len transactions ;;
    items <- py_iter transactions ;;
    lines <- mapM transaction_line items ;;
    Return ((NEWLINE :: lit "Recent Transactions (last " ++ digits count
             ++ lit "):") :: lines)
  else Return [].

Definition _build_context (user_context : value) : outcome str :=
  name <- py_get user_context (lit "userName") (VStr (lit "Customer")) ;;
  accounts <- py_get user_context (lit "accounts") (VList []) ;;
  account_parts <- accounts_part accounts ;;
  transactions <- py_get user_context (lit "recentTransactions") (VList []) ;;
  transaction_parts <- transactions_part transactions ;;
  Return (join [NEWLINE]
            ([lit "Customer: " ++ py_str py_repr name]
             ++ account_parts ++ transaction_parts)).

(** [{"role": msg["role"], "content": msg["content"]}] *)
Definition copy_turn (msg : value) : outcome value :=
  role <- py_getitem msg (lit "role") ;;
  content <- py_getitem msg (lit "content") ;;
  Return (message role content).

Definition chat_request (messages : list value) : request :=
  {| model := CHAT_MODEL;
     messages := messages;
     max_tokens := 500;
     temperature := 7 # 10 |}.

Definition chat (user_message conversation_history user_context : value)
  : M str :=
  context_block <~ lift (_build_context user_context) ;;
  let head :=
    [ message (VStr (lit "system")) (VStr SYSTEM_PROMPT);
      message (VStr (lit "system"))
        (VStr (lit "Customer data:" ++ [NEWLINE] ++ context_block)) ] in
  turns <~ lift (items <- py_iter conversation_history ;;
                 mapM copy_turn items) ;;
  let messages :=
    head ++ turns ++ [message (VStr (lit "user")) user_message] in
  content <~ create endpoint (chat_request messages) ;;
  lift (py_strip content).

End Chatbot.

End BankChatbot.

End Ai.

(* ================================================================== *)
(** * [app.py] *)
(* ================================================================== *)

Module App.

Import Ai.

(** An uploaded part of a multipart form ([werkzeug]'s [FileStorage]):
    [content_type] is [None] when the part carries no such header. *)
Record file_storage := {
  filename : str;
  content_type : option str;
  read : list Byte.byte
}.

(** What the routes look at in [flask.request]: the uploaded files by
    field name, and what [request.get_json()] gives for the body (the
    decoded value, or the abort of the framework). *)
Record http_request := {
  files : list (str * file_storage);
  get_json : outcome value
}.

(** A response: the [jsonify]-ed body and the status code. *)
Definition response : Type := value * Z.

Fixpoint files_get (fs : list (str * file_storage)) (name : str)
  : option file_storage :=
  match fs with
  | [] => None
  | (n, f) :: r => if str_eqb n name then Some f else files_get r name
  end.

Definition allowed : list str :=
  [lit "image/jpeg"; lit "image/png"; lit "image/jpg"; lit "image/webp"].

(** [file.content_type not in allowed] *)
Definition not_allowed (ct : option str) : bool :=
  match ct with
  | Some t => negb (existsb (str_eqb t) allowed)
  | None => true
  end.

Definition NO_IMAGE : str := lit "No image file provided".
Definition EMPTY_FILENAME : str := lit "Empty filename".
Definition INVALID_TYPE : str := lit "Invalid file type".
Definition EMPTY_FILE : str := lit "Empty file".

Section Routes.

Variable endpoint : request -> outcome value.
Variable py_repr : value -> str.

(** [str(e)] for a caught exception: the interpreter's message. *)
Variable exn_str : exn -> str.

(** [POST /validate-id] *)
Definition validate_id (req : http_request) : M response :=
  match files_get (files req) (lit "image") with
  | None => ret (verdict false VNone (VStr NO_IMAGE), 400%Z)
  | Some file =>
      if str_eqb (filename file) [] then
        ret (verdict false VNone (VStr EMPTY_FILENAME), 400%Z)
      else if not_allowed (content_type file) then
        ret (verdict false VNone (VStr INVALID_TYPE), 400%Z)
      else
        let image_bytes := read file in
        if (length image_bytes =? 0)%nat then
          ret (verdict false VNone (VStr EMPTY_FILE), 400%Z)
        else
          result <~ validate_national_id endpoint image_bytes ;;
          valid <~ lift (py_getitem result (lit "valid")) ;;
          let status := if truthy valid then 200%Z else 400%Z in
          ret (result, status)
  end.

(** [not data or "message" not in data] *)
Definition message_missing (data : value) : outcome bool :=
  if negb (truthy data) then Return true
  else present <- py_in (lit "message") data ;; Return (negb present).

(** [POST /chat] *)
Definition chat (req : http_request) : M response :=
  data <~ lift (get_json req) ;;
  missing <~ lift (message_missing data) ;;
  if missing then
    ret (VDict [(lit "error", VStr (lit "Missing 'message' field"))], 400%Z)
  else
    message <~ lift (py_getitem data (lit "message")) ;;
    history <~ lift (py_get data (lit "conversationHistory") (VList [])) ;;
    user_context <~ lift (py_get data (lit "userContext") (VDict [])) ;;
    try_except
      (reply <~ BankChatbot.chat endpoint py_repr message history user_context ;;
       ret (VDict [(lit "reply", VStr reply)], 200%Z))
      (fun e =>
         ret (VDict [(lit "error",
                      VStr (lit "Chat service error: " ++ exn_str e))],
              500%Z)).

(** [GET /health] *)
Definition health : M response :=
  ret (VDict [(lit "status", VStr (lit "healthy"))], 200%Z).

End Routes.

End App.

(* ================================================================== *)
(** * Vocabulary of the specification *)
(* ================================================================== *)

Module Spec.

Import Ai.

(** A model answer [s] wrapped in a Markdown code fence: an opening fence
    with an optional language tag on its own line, the answer, and a
    closing fence on its own line. *)
Definition fenced (tag s : str) : str :=
  FENCE ++ tag ++ NEWLINE :: s ++ NEWLINE :: FENCE.

(** The fences put directly around the answer, without line breaks. *)
Definition fenced_inline (s : str) : str := FENCE ++ s ++ FENCE.

(** [o.get(k, default)] of a dictionary. *)
Definition field (d : list (str * value)) (k : str) (default : value) : value :=
  match dict_get d k with
  | Some v => v
  | None => default
  end.

(** The content type of an upload is one of the allowed ones. *)
Definition allowed_type (ct : option str) : Prop :=
  exists t, ct = Some t /\ In t App.allowed.

(** The upload the validate-id route looks at, if the request has one. *)
Definition upload (req : App.http_request) : option App.file_storage :=
  App.files_get (App.files req) (lit "image").

(** A request body that decodes to [data]. *)
Definition json_request (data : value) : App.http_request :=
  {| App.files := []; App.get_json := Return data |}.

(** [needle] occurs in [hay] as a contiguous piece. *)
Definition occurs (needle hay : str) : Prop :=
  exists before after, hay = before ++ needle ++ after.

(** A conversation turn as the chat assistant reads it: a dictionary
    with a [role] and a [content] entry, copied to a message. *)
Definition turn_of (item msg : value) : Prop :=
  exists d role content,
    item = VDict d
    /\ dict_get d (lit "role") = Some role
    /\ dict_get d (lit "content") = Some content
    /\ msg = message role content.

(** The messages the chat assistant is to send. *)
Definition expected_messages (context_block : str) (turns : list value)
    (user_message : value) : list value :=
  [ message (VStr (lit "system")) (VStr BankChatbot.SYSTEM_PROMPT);
    message (VStr (lit "system"))
      (VStr (lit "Customer data:" ++ [NEWLINE] ++ context_block)) ]
  ++ turns
  ++ [ message (VStr (lit "user")) user_message ].

(** Digit strings, and text without any digit. *)
Definition all_digits (s : str) : bool := forallb is_digit s.
Definition no_digit (s : str) : bool := forallb (fun c => negb (is_digit c)) s.

Section Fields.

Variable py_repr : value -> str.

Definition text_of (d : list (str * value)) (k : str) (default : value) : str :=
  py_str py_repr (field d k default).

Definition amount_text (plus : bool) (d : list (str * value)) (k : str)
  : list str :=
  match format_2f plus (field d k (VInt 0)) with
  | Return t => [t]
  | Raise _ => []
  end.

Definition items_of (v : value) : list value :=
  match py_iter v with
  | Return l => l
  | Raise _ => []
  end.

(** The texts the block shows for an account, its number apart. *)
Definition account_fields (acc : value) : list str :=
  match acc with
  | VDict d =>
      [text_of d (lit "type") (VStr (lit "Account"))]
      ++ amount_text false d (lit "balance")
      ++ [text_of d (lit "currency") (VStr (lit "USD"));
          text_of d (lit "status") (VStr (lit "Active"))]
  | _ => []
  end.

(** The texts the block shows for a transaction. *)
Definition transaction_fields (tx : value) : list str :=
  match tx with
  | VDict d =>
      [text_of d (lit "date") (VStr []); text_of d (lit "type") (VStr [])]
      ++ amount_text true d (lit "amount")
      ++ [text_of d (lit "description") (VStr (lit "N/A"))]
      ++ amount_text false d (lit "balanceAfter")
  | _ => []
  end.

Definition count_text (transactions : value) : list str :=
  match py_len transactions with
  | Return n => [digits n]
  | Raise _ => []
  end.

(** Everything the block shows of a context besides the masked account
    numbers: the user name, the other entries of the accounts, the
    number of transactions and the entries of the transactions. *)
Definition other_fields (ctx : list (str * value)) : list str :=
  let accounts := field ctx (lit "accounts") (VList []) in
  let transactions := field ctx (lit "recentTransactions") (VList []) in
  [text_of ctx (lit "userName") (VStr (lit "Customer"))]
  ++ flat_map account_fields (items_of accounts)
  ++ (if truthy transactions
      then count_text transactions
           ++ flat_map transaction_fields (items_of transactions)
      else []).

End Fields.

(** The data URL of the image in a request of the validator: the [url]
    of the [image_url] part of the user message. *)
Definition sent_image_url (req : request) : option str :=
  match messages req with
  | [_; VDict m] =>
      match dict_get m (lit "content") with
      | Some (VList [_; VDict part]) =>
          match dict_get part (lit "image_url") with
          | Some (VDict u) =>
              match dict_get u (lit "url") with
              | Some (VStr s) => Some s
              | _ => None
              end
          | _ => None
          end
      | _ => None
      end
  | _ => None
  end.

(** Reading base64 text back: the value of a character of the alphabet,
    and the bytes of each group of four characters. *)
Definition b64_index (c : char) : N :=
  (if (65 <=? c) && (c <=? 90) then c - 65
   else if (97 <=? c) && (c <=? 122) then c - 71
   else if (48 <=? c) && (c <=? 57) then c + 4
   else if c =? 43 then 62 else 63)%N.

Fixpoint b64decode (s : str) : list N :=
  match s with
  | c1 :: c2 :: c3 :: c4 :: r =>
      let i1 := b64_index c1 in
      let i2 := b64_index c2 in
      let i3 := b64_index c3 in
      let i4 := b64_index c4 in
      if (c3 =? 61)%N then [i1 * 4 + i2 / 16]%N
      else if (c4 =? 61)%N
      then [i1 * 4 + i2 / 16; i2 mod 16 * 16 + i3 / 4]%N
      else [i1 * 4 + i2 / 16; i2 mod 16 * 16 + i3 / 4; i3 mod 4 * 64 + i4]%N
           ++ b64decode r
  | _ => []
  end.

(** An amount of the documented kind: a float, or an integer that a
    float holds exactly. *)
Definition amount_ok (v : value) : Prop :=
  match v with
  | VFloat _ => True
  | VInt z => (Z.abs z < 2 ^ 53)%Z
  | _ => False
  end.

(** An account and a transaction of the documented shape: a dictionary
    whose account number, if any, is a string and whose amounts, if any,
    are numbers. *)
Definition account_ok (acc : value) : Prop :=
  exists d,
    acc = VDict d
    /\ (exists n, field d (lit "accountNumber") (VStr []) = VStr n)
    /\ amount_ok (field d (lit "balance") (VInt 0)).

Definition transaction_ok (tx : value) : Prop :=
  exists d,
    tx = VDict d
    /\ amount_ok (field d (lit "amount") (VInt 0))
    /\ amount_ok (field d (lit "balanceAfter") (VInt 0)).

(** Text that ends in a dot and two digits. *)
Definition two_decimals (t : str) : Prop :=
  exists whole frac,
    t = whole ++ DOT ++ frac /\ length frac = 2%nat /\ all_digits frac = true.

End Spec.
Import Spec.

(* ================================================================== *)
(** * Concrete inputs *)
(* ================================================================== *)

Import Ai App.

(** Answers of the model. *)
Definition tag_json : str := lit "json".

Definition answer_valid : str :=
  lit "{" ++ quoted (lit "valid") ++ lit ": true, "
  ++ quoted (lit "idNumber") ++ lit ": " ++ quoted (lit "AB123456") ++ lit "}".

(** An answer that is itself a fenced block around the empty object. *)
Definition answer_fenced_object : str := fenced [] (lit "{}").

Definition answer_only_id : str :=
  lit "{" ++ quoted (lit "idNumber") ++ lit ": " ++ quoted (lit "AB123456")
  ++ lit "}".

(** Endpoints and uploads. *)
Definition offline : request -> outcome value :=
  fun _ => Raise (UpstreamError 503).

Definition text_upload : file_storage :=
  {| filename := lit "id.txt";
     content_type := Some (lit "text/plain");
     read := [Byte.x69; Byte.x64] |}.

Definition png_upload : file_storage :=
  {| filename := lit "id.png";
     content_type := Some (lit "image/png");
     read := [Byte.x89; Byte.x50] |}.

Definition unnamed_upload : file_storage :=
  {| filename := [];
     content_type := Some (lit "image/png");
     read := [Byte.x89; Byte.x50] |}.

Definition upload_request (f : file_storage) : http_request :=
  {| files := [(lit "image", f)]; get_json := Raise (HTTPException 415) |}.

Definition answers_valid : request -> outcome value :=
  fun _ => Return (VStr answer_valid).

Definition answers_array : request -> outcome value :=
  fun _ => Return (VStr (lit "[]")).

Definition plain_exn_str : exn -> str := fun _ => lit "error".


Definition webp_upload : file_storage :=
  {| filename := lit "scan.webp";
     content_type := Some (lit "image/webp");
     read := [Byte.x89; Byte.x50] |}.

(** Contexts of the chat assistant. None of them shows a float or a
    container through [str], so any [repr] will do. *)
Definition plain_repr : value -> str := fun _ => [].

Definition FULL_NUMBER : str := lit "1234567890".

Definition checking_account : list (str * value) :=
  [ (lit "accountNumber", VStr FULL_NUMBER);
    (lit "type", VStr (lit "Checking"));
    (lit "balance", VFloat (float_of_decimal false 15205 (-1)));
    (lit "currency", VStr (lit "USD"));
    (lit "status", VStr (lit "Active")) ].

Definition coffee : list (str * value) :=
  [ (lit "date", VStr (lit "2024-01-02"));
    (lit "type", VStr (lit "Withdrawal"));
    (lit "amount", VInt (-20));
    (lit "description", VStr (lit "Coffee"));
    (lit "balanceAfter", VFloat (float_of_decimal false 15205 (-1))) ].

Definition incoming_transfer : list (str * value) :=
  [ (lit "date", VStr (lit "2024-01-03"));
    (lit "type", VStr (lit "Transfer"));
    (lit "amount", VInt 100);
    (lit "description", VStr (lit "Transfer to 1234567890"));
    (lit "balanceAfter", VInt 1620) ].

Definition context_of (accounts transactions : list value)
  : list (str * value) :=
  [ (lit "userName", VStr (lit "Ali"));
    (lit "accounts", VList accounts);
    (lit "recentTransactions", VList transactions) ].

Definition ali_context : list (str * value) :=
  context_of [VDict checking_account] [VDict coffee].

Definition ali_block : str :=
  Eval vm_compute in
    match BankChatbot._build_context plain_repr (VDict ali_context) with
    | Return block => block
    | Raise _ => []
    end.

Definition short_account : list (str * value) :=
  [ (lit "accountNumber", VStr (lit "42")); (lit "balance", VInt 7) ].

Definition short_context : list (str * value) :=
  context_of [VDict short_account] [].

Definition short_block : str :=
  Eval vm_compute in
    match BankChatbot._build_context plain_repr (VDict short_context) with
    | Return block => block
    | Raise _ => []
    end.

Definition earlier_turns : list value :=
  [ message (VStr (lit "user")) (VStr (lit "Hi"));
    message (VStr (lit "assistant")) (VStr (lit "Hello, how can I help?")) ].

Definition answers_balance : request -> outcome value :=
  fun _ => Return (VStr (NEWLINE :: lit " Your balance is 1520.50 USD. ")).

(** Bodies of the chat route. *)
Definition balance_question : list (str * value) :=
  [ (lit "message", VStr (lit "What's my balance?"));
    (lit "conversationHistory", VList earlier_turns);
    (lit "userContext", VDict ali_context) ].

Definition question_without_context : list (str * value) :=
  [ (lit "message", VStr (lit "What's my balance?"));
    (lit "userContext", VNone) ].

Definition body_without_message : list (str * value) :=
  [ (lit "text", VStr (lit "What's my balance?")) ].

(* ================================================================== *)
(** * Properties of the string and grammar layer *)
(* ================================================================== *)

Lemma str_eqb_eq (a b : str) : str_eqb a b = true <-> a = b.
Proof.
  revert b; induction a as [|x a IH]; intros [|y b]; simpl; split; intro H;
    try discriminate; try reflexivity.
  - apply andb_true_iff in H as [Hx Hr].
    apply N.eqb_eq in Hx. apply IH in Hr. now subst.
  - inversion H; subst. apply andb_true_iff. split.
    + apply N.eqb_refl.
    + now apply IH.
Qed.

Lemma str_eqb_refl (a : str) : str_eqb a a = true.
Proof. now apply str_eqb_eq. Qed.

Lemma skip_ws_length (s : str) : (length (skip_ws s) <= length s)%nat.
Proof.
  induction s as [|c r IH]; simpl; [lia|].
  destruct (is_ws c); simpl; lia.
Qed.

Lemma push_some c X t r :
  push c X = Some (t, r) -> exists t', X = Some (t', r).
Proof.
  destruct X as [[t' r']|]; simpl; [|discriminate].
  intros H; inversion H; subst. now exists t'.
Qed.

(** A string literal consumes at least its closing quote. *)
Lemma scan_string_length_aux (n : nat) :
  forall s t r, (length s <= n)%nat ->
    scan_string s = Some (t, r) -> (length r < length s)%nat.
Proof.
  induction n as [|n IH]; intros s t r Hn H.
  - destruct s; [discriminate | simpl in Hn; lia].
  - destruct s as [|c s1]; [discriminate|].
    simpl in Hn. cbn [scan_string] in H.
    destruct (c =? 34)%N.
    { inversion H; subst. simpl. lia. }
    destruct (c =? 92)%N.
    2:{ destruct (c <? 32)%N; [discriminate|].
        apply push_some in H as [t' H]. apply IH in H; simpl; lia. }
    destruct s1 as [|e s2]; [discriminate|].
    destruct (e =? 117)%N.
    2:{ destruct (simple_escape e); [|discriminate].
        apply push_some in H as [t' H]. apply IH in H; simpl in *; lia. }
    destruct s2 as [|h1 [|h2 [|h3 [|h4 s3]]]]; try discriminate.
    destruct (hex4 h1 h2 h3 h4) as [u|]; [|discriminate].
    assert (Hplain : forall t0, push u (scan_string s3) = Some (t0, r) ->
                                (length r < length (c :: e :: h1 :: h2 :: h3 :: h4 :: s3))%nat).
    { intros t0 H0. apply push_some in H0 as [t' H0].
      apply IH in H0; simpl in *; lia. }
    destruct (is_high_surrogate u); [|now apply Hplain in H].
    destruct s3 as [|b [|l [|k1 [|k2 [|k3 [|k4 s4]]]]]];
      try (now apply Hplain in H).
    destruct ((b =? 92)%N && (l =? 117)%N); [|now apply Hplain in H].
    destruct (hex4 k1 k2 k3 k4) as [u2|]; [|discriminate].
    destruct (is_low_surrogate u2); [|now apply Hplain in H].
    apply push_some in H as [t' H]. apply IH in H; simpl in *; lia.
Qed.

Lemma scan_string_length s t r :
  scan_string s = Some (t, r) -> (length r < length s)%nat.
Proof. now apply (scan_string_length_aux (n := length s)). Qed.

Lemma span_digits_length s ds r :
  span_digits s = (ds, r) -> (length r <= length s)%nat.
Proof.
  revert ds r; induction s as [|c s IH]; intros ds r H; simpl in H.
  - inversion H; simpl; lia.
  - destruct (is_digit c).
    + destruct (span_digits s) as [ds' r'] eqn:E. inversion H; subst.
      specialize (IH _ _ eq_refl). simpl; lia.
    + inversion H; subst. simpl; lia.
Qed.

Lemma span_digits_nonempty c s ds r :
  is_digit c = true -> span_digits (c :: s) = (ds, r) ->
  (length r <= length s)%nat.
Proof.
  intros Hc H. simpl in H. rewrite Hc in H.
  destruct (span_digits s) as [ds' r'] eqn:E. inversion H; subst.
  now apply span_digits_length in E.
Qed.

Lemma scan_fraction_length s fds r :
  scan_fraction s = (fds, r) -> (length r <= length s)%nat.
Proof.
  unfold scan_fraction. intros H.
  destruct s as [|dot [|f s']]; try (inversion H; subst; simpl; lia).
  destruct ((dot =? 46)%N && is_digit f).
  - apply span_digits_length in H. simpl in *; lia.
  - inversion H; subst; simpl; lia.
Qed.

Lemma exponent_digits_length whole eneg s ex r :
  (length s <= length whole)%nat ->
  exponent_digits whole eneg s = (ex, r) -> (length r <= length whole)%nat.
Proof.
  unfold exponent_digits. intros Hs H.
  destruct (span_digits s) as [[|d eds] rest] eqn:E.
  - inversion H; subst; lia.
  - inversion H; subst. apply span_digits_length in E. lia.
Qed.

Lemma scan_exponent_length s ex r :
  scan_exponent s = (ex, r) -> (length r <= length s)%nat.
Proof.
  unfold scan_exponent. intros H.
  destruct s as [|e s1]; [inversion H; subst; simpl; lia|].
  destruct ((e =? 101) || (e =? 69))%N; [|inversion H; subst; simpl; lia].
  destruct s1 as [|sg s2]; [inversion H; subst; simpl; lia|].
  destruct (sg =? 45)%N;
    [apply exponent_digits_length in H; [exact H | simpl; lia]|].
  destruct (sg =? 43)%N;
    apply exponent_digits_length in H; try exact H; simpl; lia.
Qed.

Lemma scan_number_length s v r :
  scan_number s = Some (v, r) -> (length r < length s)%nat.
Proof.
  unfold scan_number. intros H.
  destruct (match s with
            | [] => (false, s)
            | c :: r0 => if (c =? 45)%N then (true, r0) else (false, s)
            end) as [neg s1] eqn:Es.
  assert (Hs1 : (length s1 <= length s)%nat).
  { destruct s as [|c r0]; [inversion Es; subst; simpl; lia|].
    destruct (c =? 45)%N; inversion Es; subst; simpl; lia. }
  destruct s1 as [|c r0]; [discriminate|].
  destruct (is_digit c) eqn:Hc; cbn [negb] in H; [|discriminate].
  destruct (if (c =? 48)%N then ([0%N], r0) else span_digits (c :: r0))
    as [ids s2] eqn:Ei.
  assert (Hs2 : (length s2 <= length r0)%nat).
  { destruct (c =? 48)%N; [inversion Ei; subst; lia|].
    now apply span_digits_nonempty in Ei. }
  destruct (scan_fraction s2) as [fds s3] eqn:Ef.
  apply scan_fraction_length in Ef.
  destruct (scan_exponent s3) as [ex s4] eqn:Ee.
  apply scan_exponent_length in Ee.
  assert (r = s4) by (destruct fds, ex; inversion H; reflexivity).
  subst. simpl in Hs1. lia.
Qed.

Lemma startswith_length p s :
  startswith p s = true -> (length p <= length s)%nat.
Proof.
  revert s; induction p as [|a p IH]; intros [|b s]; simpl; intros H;
    try lia; try discriminate.
  apply andb_true_iff in H as [_ H]. apply IH in H. lia.
Qed.

Lemma Ok_inj {A} (a a' : A) (r r' : str) :
  Ok a r = Ok a' r' -> a = a' /\ r = r'.
Proof. intros H; inversion H; auto. Qed.

Lemma scan_atom_length s v r :
  scan_atom s = Ok v r -> (length r < length s)%nat.
Proof.
  unfold scan_atom. intros H.
  repeat match type of H with
  | (if startswith ?p s then _ else _) = _ =>
      let E := fresh "E" in
      destruct (startswith p s) eqn:E;
      [ apply startswith_length in E; apply Ok_inj in H as [_ <-];
        rewrite length_skipn;
        unfold NULL, TRUE, FALSE, NAN, INFINITY, NEG_INFINITY in E;
        simpl in E; lia | ]
  end.
  destruct (scan_number s) as [[v' r']|] eqn:En; [|discriminate].
  inversion H; subst. now apply scan_number_length in En.
Qed.

(** Whatever the fuel, a parsed value consumed at least one character. *)
Lemma scan_progress (f : nat) :
  (forall s v r, scan_once f s = Ok v r -> (length r < length s)%nat) /\
  (forall s ps r, parse_members f s = Ok ps r -> (length r < length s)%nat) /\
  (forall s vs r, parse_elements f s = Ok vs r -> (length r < length s)%nat).
Proof.
  induction f as [|f (IHv & IHm & IHe)];
    [repeat split; intros; discriminate|].
  repeat split.
  - intros s v r H. cbn [scan_once] in H.
    destruct s as [|c s1]; [discriminate|].
    destruct (c =? 34)%N.
    { destruct (scan_string s1) as [[t rest]|] eqn:E; [|discriminate].
      inversion H; subst. apply scan_string_length in E. simpl; lia. }
    destruct (c =? 123)%N.
    { pose proof (skip_ws_length s1) as Hw.
      destruct (skip_ws s1) as [|c1 r1]; [discriminate|].
      destruct (c1 =? 125)%N; [inversion H; subst; simpl in *; lia|].
      destruct (parse_members f (c1 :: r1)) as [ps rest| |] eqn:E;
        try discriminate.
      inversion H; subst. apply IHm in E. simpl in *; lia. }
    destruct (c =? 91)%N.
    { pose proof (skip_ws_length s1) as Hw.
      destruct (skip_ws s1) as [|c1 r1]; [discriminate|].
      destruct (c1 =? 93)%N; [inversion H; subst; simpl in *; lia|].
      destruct (parse_elements f (c1 :: r1)) as [vs rest| |] eqn:E;
        try discriminate.
      inversion H; subst. apply IHe in E. simpl in *; lia. }
    now apply scan_atom_length in H.
  - intros s ps r H. cbn [parse_members] in H.
    destruct s as [|q s1]; [discriminate|].
    destruct (negb (q =? 34)%N); [discriminate|].
    destruct (scan_string s1) as [[k r1]|] eqn:Ek; [|discriminate].
    apply scan_string_length in Ek.
    pose proof (skip_ws_length r1) as Hw1.
    destruct (skip_ws r1) as [|colon r2]; [discriminate|].
    destruct (negb (colon =? 58)%N); [discriminate|].
    pose proof (skip_ws_length r2) as Hw2.
    destruct (scan_once f (skip_ws r2)) as [v r3| |] eqn:Ev; try discriminate.
    apply IHv in Ev.
    pose proof (skip_ws_length r3) as Hw3.
    destruct (skip_ws r3) as [|d r4]; [discriminate|].
    destruct (d =? 125)%N; [inversion H; subst; simpl in *; lia|].
    destruct (d =? 44)%N; [|discriminate].
    pose proof (skip_ws_length r4) as Hw4.
    destruct (parse_members f (skip_ws r4)) as [ps' rest| |] eqn:Em;
      try discriminate.
    inversion H; subst. apply IHm in Em. simpl in *; lia.
  - intros s vs r H. cbn [parse_elements] in H.
    destruct (scan_once f s) as [v r1| |] eqn:Ev; try discriminate.
    apply IHv in Ev.
    pose proof (skip_ws_length r1) as Hw1.
    destruct (skip_ws r1) as [|d r2]; [discriminate|].
    destruct (d =? 93)%N; [inversion H; subst; simpl in *; lia|].
    destruct (d =? 44)%N; [|discriminate].
    pose proof (skip_ws_length r2) as Hw2.
    destruct (parse_elements f (skip_ws r2)) as [vs' rest| |] eqn:Ee;
      try discriminate.
    inversion H; subst. apply IHe in Ee. simpl in *; lia.
Qed.

Lemma scan_atom_fuel s : scan_atom s <> OutOfFuel.
Proof.
  unfold scan_atom.
  repeat match goal with
  | |- (if ?b then _ else _) <> _ => destruct b; [discriminate|]
  end.
  destruct (scan_number s) as [[v r]|]; discriminate.
Qed.

(** Twice the length of the text (and two more) is fuel enough: the scan
    never stops for lack of it. *)
Lemma scan_fuel (f : nat) :
  (forall s, (2 * length s + 1 <= f)%nat -> scan_once f s <> OutOfFuel) /\
  (forall s, (2 * length s + 2 <= f)%nat -> parse_members f s <> OutOfFuel) /\
  (forall s, (2 * length s + 2 <= f)%nat -> parse_elements f s <> OutOfFuel).
Proof.
  induction f as [|f (IHv & IHm & IHe)];
    [repeat split; intros; lia|].
  destruct (scan_progress f) as (Pv & Pm & Pe).
  repeat split.
  - intros s Hf. cbn [scan_once].
    destruct s as [|c s1]; [discriminate|]. simpl in Hf.
    destruct (c =? 34)%N.
    { destruct (scan_string s1) as [[t rest]|]; discriminate. }
    destruct (c =? 123)%N.
    { pose proof (skip_ws_length s1) as Hw.
      destruct (skip_ws s1) as [|c1 r1]; [discriminate|].
      destruct (c1 =? 125)%N; [discriminate|].
      assert (parse_members f (c1 :: r1) <> OutOfFuel) as Hm
          by (apply IHm; simpl in *; lia).
      destruct (parse_members f (c1 :: r1)); congruence. }
    destruct (c =? 91)%N.
    { pose proof (skip_ws_length s1) as Hw.
      destruct (skip_ws s1) as [|c1 r1]; [discriminate|].
      destruct (c1 =? 93)%N; [discriminate|].
      assert (parse_elements f (c1 :: r1) <> OutOfFuel) as He
          by (apply IHe; simpl in *; lia).
      destruct (parse_elements f (c1 :: r1)); congruence. }
    apply scan_atom_fuel.
  - intros s Hf. cbn [parse_members].
    destruct s as [|q s1]; [discriminate|]. simpl in Hf.
    destruct (negb (q =? 34)%N); [discriminate|].
    destruct (scan_string s1) as [[k r1]|] eqn:Ek; [|discriminate].
    apply scan_string_length in Ek.
    pose proof (skip_ws_length r1) as Hw1.
    destruct (skip_ws r1) as [|colon r2]; [discriminate|].
    destruct (negb (colon =? 58)%N); [discriminate|].
    pose proof (skip_ws_length r2) as Hw2.
    assert (scan_once f (skip_ws r2) <> OutOfFuel) as Hv
        by (apply IHv; simpl in *; lia).
    destruct (scan_once f (skip_ws r2)) as [v r3| |] eqn:Ev;
      try congruence.
    apply Pv in Ev.
    pose proof (skip_ws_length r3) as Hw3.
    destruct (skip_ws r3) as [|d r4]; [discriminate|].
    destruct (d =? 125)%N; [discriminate|].
    destruct (d =? 44)%N; [|discriminate].
    pose proof (skip_ws_length r4) as Hw4.
    assert (parse_members f (skip_ws r4) <> OutOfFuel) as Hm
        by (apply IHm; simpl in *; lia).
    destruct (parse_members f (skip_ws r4)); congruence.
  - intros s Hf. cbn [parse_elements].
    assert (scan_once f s <> OutOfFuel) as Hv by (apply IHv; lia).
    destruct (scan_once f s) as [v r1| |] eqn:Ev; try congruence.
    apply Pv in Ev.
    pose proof (skip_ws_length r1) as Hw1.
    destruct (skip_ws r1) as [|d r2]; [discriminate|].
    destruct (d =? 93)%N; [discriminate|].
    destruct (d =? 44)%N; [|discriminate].
    pose proof (skip_ws_length r2) as Hw2.
    assert (parse_elements f (skip_ws r2) <> OutOfFuel) as He
        by (apply IHe; simpl in *; lia).
    destruct (parse_elements f (skip_ws r2)); congruence.
Qed.

(** [json_loads] never gives up for lack of fuel: the scan it runs ends
    with a value or with a syntax error. *)
Lemma json_loads_fuel (s : str) :
  scan_once (fuel_for s) (skip_ws s) <> OutOfFuel.
Proof.
  apply (scan_fuel (fuel_for s)). unfold fuel_for.
  pose proof (skip_ws_length s). lia.
Qed.

(** So [json_loads] answers [None] only where [json.loads] raises
    [JSONDecodeError]: on empty text, on a byte order mark, on a syntax
    error, or on text left after the value. *)
Lemma json_loads_None (s : str) :
  json_loads s = None ->
  s = []
  \/ startswith [BOM] s = true
  \/ scan_once (fuel_for s) (skip_ws s) = Bad
  \/ exists v rest,
       scan_once (fuel_for s) (skip_ws s) = Ok v rest /\ skip_ws rest <> [].
Proof.
  unfold json_loads. destruct s as [|c r]; [now left|]. intros H. right.
  cbn [startswith]. destruct (c =? BOM)%N eqn:Ec.
  - left. rewrite N.eqb_sym, Ec. reflexivity.
  - right. pose proof (json_loads_fuel (c :: r)) as Hfuel.
    destruct (scan_once (fuel_for (c :: r)) (skip_ws (c :: r)))
      as [v rest| |]; [right | now left | congruence].
    exists v, rest. split; [reflexivity|].
    destruct (skip_ws rest); [discriminate | discriminate].
Qed.

(** ** [strip], [split] and [rsplit] *)

Lemma rstrip_snoc_keep (a : str) (c : char) :
  isspace c = false -> rstrip (a ++ [c]) = a ++ [c].
Proof.
  intros Hc. induction a as [|x a IH]; simpl.
  - now rewrite Hc.
  - rewrite IH. destruct a; reflexivity.
Qed.

Lemma rstrip_snoc_drop (a : str) (c : char) :
  isspace c = true -> rstrip (a ++ [c]) = rstrip a.
Proof.
  intros Hc. induction a as [|x a IH]; simpl.
  - now rewrite Hc.
  - now rewrite IH.
Qed.

Lemma lstrip_snoc (a : str) (c : char) :
  isspace c = true ->
  lstrip (a ++ [c]) = match lstrip a with [] => [] | l => l ++ [c] end.
Proof.
  intros Hc. induction a as [|x a IH]; simpl.
  - now rewrite Hc.
  - destruct (isspace x); [exact IH | reflexivity].
Qed.

(** A trailing whitespace character does not change the trimmed text. *)
Lemma strip_snoc_space (a : str) (c : char) :
  isspace c = true -> strip (a ++ [c]) = strip a.
Proof.
  intros Hc. unfold strip. rewrite lstrip_snoc by exact Hc.
  destruct (lstrip a) as [|x l]; [reflexivity|].
  change (x :: l ++ [c]) with ((x :: l) ++ [c]).
  now apply rstrip_snoc_drop.
Qed.

(** Text that begins and ends with visible characters is its own trim. *)
Lemma strip_visible (x y : char) (a : str) :
  isspace x = false -> isspace y = false ->
  strip (x :: a ++ [y]) = x :: a ++ [y].
Proof.
  intros Hx Hy. unfold strip. simpl lstrip. rewrite Hx.
  change (x :: a ++ [y]) with ((x :: a) ++ [y]).
  now apply rstrip_snoc_keep.
Qed.

Lemma split1_newline (a b : str) :
  ~ In NEWLINE a -> split1 [NEWLINE] (a ++ NEWLINE :: b) = [a; b].
Proof.
  induction a as [|x a IH]; intros Hin.
  - reflexivity.
  - assert (Hx : (NEWLINE =? x)%N = false).
    { apply N.eqb_neq. intros E. apply Hin. now left. }
    rewrite <- app_comm_cons. cbn [split1 startswith].
    rewrite Hx. cbn [andb]. rewrite IH; [reflexivity|].
    intros Hina. apply Hin. now right.
Qed.

Lemma rsplit1_final (sep a : str) :
  sep <> [] -> rsplit1 sep (a ++ sep) = [a; []].
Proof.
  intros Hsep. induction a as [|x a IH].
  - simpl. destruct sep as [|c sep]; [congruence|].
    assert (Hstart : forall p, startswith p p = true).
    { induction p as [|y p IHp]; simpl; [reflexivity|].
      now rewrite N.eqb_refl. }
    assert (Hskip : forall p : str, skipn (length p) p = []).
    { induction p as [|y p IHp]; simpl; auto. }
    assert (Hnone : forall p q : str,
               (length p < length q)%nat ->
               match rsplit1 q p with [_; _] => False | _ => True end).
    { induction p as [|y p IHp]; intros q Hq; simpl; [exact I|].
      specialize (IHp q ltac:(simpl in Hq; lia)).
      destruct (rsplit1 q p) as [|h [|t [|u l]]]; try contradiction.
      - destruct (startswith q (y :: p)) eqn:E; [|exact I].
        apply startswith_length in E. lia.
      - destruct (startswith q (y :: p)) eqn:E; [|exact I].
        apply startswith_length in E. lia.
      - destruct (startswith q (y :: p)) eqn:E; [|exact I].
        apply startswith_length in E. lia. }
    cbn [rsplit1].
    specialize (Hnone sep (c :: sep) ltac:(simpl; lia)).
    rewrite Hstart, Hskip.
    destruct (rsplit1 (c :: sep) sep) as [|h [|t [|u l]]];
      try contradiction; reflexivity.
  - simpl. rewrite IH. reflexivity.
Qed.

(* ================================================================== *)
(** * The ID validator *)
(* ================================================================== *)

Import Ai.
Unset Implicit Arguments.

Lemma strip_fenced (tag s : str) : strip (fenced tag s) = fenced tag s.
Proof.
  assert (E : fenced tag s
              = 96%N :: ([96%N; 96%N] ++ tag ++ NEWLINE :: s
                         ++ [NEWLINE; 96%N; 96%N]) ++ [96%N]).
  { unfold fenced, FENCE. simpl. do 2 f_equal.
    repeat (rewrite <- app_assoc; simpl). reflexivity. }
  rewrite E. now apply strip_visible.
Qed.

(** Stripping the fences of a fenced answer gives the trimmed answer. *)
Lemma strip_fences_fenced (tag s : str) :
  ~ In NEWLINE tag -> strip_fences (fenced tag s) = strip s.
Proof.
  intros Htag. unfold strip_fences.
  assert (Hstart : startswith FENCE (fenced tag s) = true) by reflexivity.
  rewrite Hstart.
  assert (Hsplit : split1 [NEWLINE] (fenced tag s)
                   = [FENCE ++ tag; s ++ NEWLINE :: FENCE]).
  { unfold fenced. rewrite app_assoc. apply split1_newline.
    intros Hin. apply in_app_or in Hin as [Hin|Hin]; [|now apply Htag].
    unfold FENCE, NEWLINE in Hin. simpl in Hin.
    repeat destruct Hin as [Hin|Hin]; try discriminate; contradiction. }
  rewrite Hsplit. cbn [last_part last].
  change (s ++ NEWLINE :: FENCE) with (s ++ [NEWLINE] ++ FENCE).
  rewrite app_assoc, rsplit1_final by discriminate.
  cbn [first_part hd]. now apply strip_snoc_space.
Qed.

(** What [parse_model_output] does with the text of an answer, by the
    result of [json.loads] on the trimmed, fence-stripped text. *)
Lemma parse_model_output_decode_error (s : str) :
  json_loads (strip_fences (strip s)) = None ->
  parse_model_output (VStr s) = Return (verdict false VNone (VStr PARSE_FAILURE)).
Proof. intros H. unfold parse_model_output. simpl. now rewrite H. Qed.

Lemma parse_model_output_object (s : str) (d : list (str * value)) :
  json_loads (strip_fences (strip s)) = Some (VDict d) ->
  parse_model_output (VStr s)
  = Return (verdict (truthy (field d (lit "valid") (VBool false)))
              (field d (lit "idNumber") VNone)
              (field d (lit "error") VNone)).
Proof. intros H. unfold parse_model_output. simpl. now rewrite H. Qed.

Lemma parse_model_output_not_object (s : str) (v : value) :
  json_loads (strip_fences (strip s)) = Some v ->
  (forall d, v <> VDict d) ->
  parse_model_output (VStr s) = Raise AttributeError.
Proof.
  intros H Hv. unfold parse_model_output. simpl. rewrite H.
  destruct v; try reflexivity. now elim (Hv d).
Qed.

(** C1 (the code departs from the claim): when the text of the model is
    valid JSON but not an object (an array, a number, a string, [null],
    a boolean), [validate_national_id] does not return the parse-failure
    dictionary: [result.get] raises [AttributeError], which
    [except json.JSONDecodeError] does not catch. The call to the model
    has been made by then. *)
Theorem validate_national_id_non_object_raises
    (endpoint : request -> outcome value) (image_bytes : list Byte.byte)
    (s : str) (v : value) (log : list request) :
  endpoint (id_request image_bytes) = Return (VStr s) ->
  json_loads (strip_fences (strip s)) = Some v ->
  (forall d, v <> VDict d) ->
  validate_national_id endpoint image_bytes log
  = (Raise AttributeError, log ++ [id_request image_bytes]).
Proof.
  intros Hs Hv Hd. unfold validate_national_id, bindM, create, lift.
  rewrite Hs. now rewrite (parse_model_output_not_object s v Hv Hd).
Qed.

Lemma validate_national_id_non_object_raises_witness :
  validate_national_id answers_array [Byte.x89; Byte.x50] []
  = (Raise AttributeError, [id_request [Byte.x89; Byte.x50]]).
Proof.
  apply (validate_national_id_non_object_raises answers_array
           [Byte.x89; Byte.x50] (lit "[]") (VList []) []).
  - reflexivity.
  - vm_compute. reflexivity.
  - discriminate.
Defined.

(** C3 (as amended): for an answer [s] whose trimmed text does not itself
    begin with a fence, the answer wrapped in a code fence (with any
    language tag) is parsed to the same outcome as [s] alone. *)
Theorem fenced_output_same_verdict (tag s : str) :
  ~ In NEWLINE tag ->
  startswith FENCE (strip s) = false ->
  parse_model_output (VStr (fenced tag s)) = parse_model_output (VStr s).
Proof.
  intros Htag Hs. unfold parse_model_output. cbn [py_strip bind].
  rewrite strip_fenced, strip_fences_fenced by exact Htag.
  unfold strip_fences at 1. now rewrite Hs.
Qed.

Lemma fenced_output_same_verdict_witness :
  ~ In NEWLINE tag_json /\
  startswith FENCE (strip answer_valid) = false /\
  parse_model_output (VStr (fenced tag_json answer_valid))
  = parse_model_output (VStr answer_valid).
Proof.
  assert (Htag : ~ In NEWLINE tag_json).
  { vm_compute. intros H.
    repeat destruct H as [H|H]; try discriminate; contradiction. }
  assert (Hs : startswith FENCE (strip answer_valid) = false)
    by (vm_compute; reflexivity).
  exact (conj Htag (conj Hs (fenced_output_same_verdict tag_json answer_valid Htag Hs))).
Defined.

(** C3 (as stated) fails: wrapping an answer that already begins with a
    fence changes the outcome, because one layer of fences is stripped;
    and fences put around an answer without line breaks are not stripped
    at all. *)
Lemma fenced_output_counterexample :
  parse_model_output (VStr (fenced [] answer_fenced_object))
    = Return (verdict false VNone (VStr PARSE_FAILURE))
  /\ parse_model_output (VStr answer_fenced_object)
    = Return (verdict false VNone VNone)
  /\ parse_model_output (VStr (fenced_inline answer_valid))
    = Return (verdict false VNone (VStr PARSE_FAILURE))
  /\ parse_model_output (VStr answer_valid)
    = Return (verdict true (VStr (lit "AB123456")) VNone).
Proof. repeat split; vm_compute; reflexivity. Qed.

(** C8: when the answer parses as a JSON object, the result is the
    dictionary with the three keys: [valid] is the truth value of the
    object's [valid] entry and [False] without one, [idNumber] and
    [error] are the object's entries and [None] without them. *)
Theorem object_answer_coerced (s : str) (d : list (str * value)) :
  json_loads (strip_fences (strip s)) = Some (VDict d) ->
  exists (valid : bool) (idNumber error : value),
    parse_model_output (VStr s) = Return (verdict valid idNumber error)
    /\ (dict_get d (lit "valid") = None -> valid = false)
    /\ (forall v, dict_get d (lit "valid") = Some v -> valid = truthy v)
    /\ idNumber = match dict_get d (lit "idNumber") with
                  | Some v => v | None => VNone end
    /\ error = match dict_get d (lit "error") with
               | Some v => v | None => VNone end.
Proof.
  intros H.
  exists (truthy (field d (lit "valid") (VBool false))),
         (field d (lit "idNumber") VNone), (field d (lit "error") VNone).
  split; [now apply parse_model_output_object|].
  unfold field. repeat split.
  - intros E. now rewrite E.
  - intros v E. now rewrite E.
Qed.

Lemma object_answer_coerced_witness :
  exists (valid : bool) (idNumber error : value),
    parse_model_output (VStr answer_only_id) = Return (verdict valid idNumber error)
    /\ (dict_get [(lit "idNumber", VStr (lit "AB123456"))] (lit "valid") = None
        -> valid = false)
    /\ (forall v, dict_get [(lit "idNumber", VStr (lit "AB123456"))] (lit "valid")
                  = Some v -> valid = truthy v)
    /\ idNumber = match dict_get [(lit "idNumber", VStr (lit "AB123456"))]
                          (lit "idNumber") with
                  | Some v => v | None => VNone end
    /\ error = match dict_get [(lit "idNumber", VStr (lit "AB123456"))]
                       (lit "error") with
               | Some v => v | None => VNone end.
Proof.
  apply (object_answer_coerced answer_only_id
           [(lit "idNumber", VStr (lit "AB123456"))]).
  vm_compute. reflexivity.
Defined.

(* ================================================================== *)
(** * The routes *)
(* ================================================================== *)

Import App.

Lemma not_allowed_spec (ct : option str) :
  not_allowed ct = true <-> ~ allowed_type ct.
Proof.
  unfold not_allowed, allowed_type. destruct ct as [t|].
  - rewrite negb_true_iff. split.
    + intros H (t' & E & Hin). inversion E; subst t'.
      assert (existsb (str_eqb t) allowed = true); [|congruence].
      apply existsb_exists. exists t. split; [exact Hin|apply str_eqb_refl].
    + intros H. destruct (existsb (str_eqb t) allowed) eqn:E; [|reflexivity].
      apply existsb_exists in E as (x & Hin & Hx).
      apply str_eqb_eq in Hx. subst x. elim H. now exists t.
  - split; [|reflexivity]. intros _ (t & E & _). discriminate.
Qed.

Lemma str_eqb_nil (s : str) : str_eqb s [] = true <-> s = [].
Proof. apply str_eqb_eq. Qed.

Lemma length_eqb_0 {A} (l : list A) : (length l =? 0)%nat = true <-> l = [].
Proof.
  destruct l; simpl; split; intros H; try reflexivity; discriminate.
Qed.

Section RouteProperties.

Variable endpoint : request -> outcome value.
Variable py_repr : value -> str.
Variable exn_str : exn -> str.

(** The validator returns nothing but dictionaries of the result shape. *)
Lemma validate_national_id_shape image_bytes log result log' :
  validate_national_id endpoint image_bytes log = (Return result, log') ->
  exists valid idNumber error, result = verdict valid idNumber error.
Proof.
  unfold validate_national_id, bindM, create, lift.
  destruct (endpoint (id_request image_bytes)) as [content|e];
    [|discriminate].
  unfold parse_model_output.
  destruct (py_strip content) as [raw|e]; [|discriminate]. cbn [bind].
  destruct (json_loads (strip_fences raw)) as [v|].
  - destruct v; try discriminate. cbn [py_get bind].
    intros H; inversion H; subst. eauto.
  - intros H; inversion H; subst. eauto.
Qed.

(** C2: an upload with a content type outside the allowed set, or with
    no bytes, is answered with status 400, and the log of calls to the
    model is left as it was: [validate_national_id] is not run. *)
Theorem validate_id_rejects_before_model (req : http_request)
    (file : file_storage) (log : list request) :
  upload req = Some file ->
  ~ allowed_type (content_type file) \/ read file = [] ->
  exists body, validate_id endpoint req log = (Return (body, 400%Z), log).
Proof.
  unfold upload. intros Hfile Hbad. unfold validate_id. rewrite Hfile.
  destruct (str_eqb (filename file) []); [eexists; reflexivity|].
  destruct (not_allowed (content_type file)) eqn:Hct; [eexists; reflexivity|].
  destruct Hbad as [Hbad|Hbad].
  - apply not_allowed_spec in Hbad. congruence.
  - rewrite Hbad. eexists; reflexivity.
Qed.

(** C9: the route's own validation answers 400 with a dictionary of the
    result shape, [valid] false and [idNumber] null, and one message per
    check; the checks run in the order file presence, file name, content
    type, byte length, and none of them calls the model. The four
    messages are non-empty and pairwise distinct. When every check
    passes, the model is called with the uploaded bytes. *)
Theorem validate_id_validation_order (req : http_request)
    (log : list request) :
  (upload req = None ->
   validate_id endpoint req log
   = (Return (verdict false VNone (VStr NO_IMAGE), 400%Z), log))
  /\ (forall file, upload req = Some file ->
        (filename file = [] ->
         validate_id endpoint req log
         = (Return (verdict false VNone (VStr EMPTY_FILENAME), 400%Z), log))
        /\ (filename file <> [] -> ~ allowed_type (content_type file) ->
            validate_id endpoint req log
            = (Return (verdict false VNone (VStr INVALID_TYPE), 400%Z), log))
        /\ (filename file <> [] -> allowed_type (content_type file) ->
            read file = [] ->
            validate_id endpoint req log
            = (Return (verdict false VNone (VStr EMPTY_FILE), 400%Z), log))
        /\ (filename file <> [] -> allowed_type (content_type file) ->
            read file <> [] ->
            snd (validate_id endpoint req log)
            = log ++ [id_request (read file)]))
  /\ NoDup [NO_IMAGE; EMPTY_FILENAME; INVALID_TYPE; EMPTY_FILE]
  /\ Forall (fun e : str => e <> []) [NO_IMAGE; EMPTY_FILENAME; INVALID_TYPE; EMPTY_FILE].
Proof.
  unfold upload. split; [|split; [|split]].
  - intros H. unfold validate_id. now rewrite H.
  - intros file Hfile. unfold validate_id. rewrite Hfile.
    assert (Hname : filename file <> [] -> str_eqb (filename file) [] = false).
    { intros Hn. destruct (str_eqb (filename file) []) eqn:E; [|reflexivity].
      now apply str_eqb_nil in E. }
    assert (Hok : allowed_type (content_type file) ->
                  not_allowed (content_type file) = false).
    { intros Ha. destruct (not_allowed (content_type file)) eqn:E;
        [|reflexivity]. now apply not_allowed_spec in E. }
    repeat split.
    + intros Hn. now rewrite (proj2 (str_eqb_nil _) Hn).
    + intros Hn Hct. rewrite (Hname Hn).
      now rewrite (proj2 (not_allowed_spec _) Hct).
    + intros Hn Hct Hr. now rewrite (Hname Hn), (Hok Hct), Hr.
    + intros Hn Hct Hr. rewrite (Hname Hn), (Hok Hct).
      destruct (length (read file) =? 0)%nat eqn:El.
      { now apply length_eqb_0 in El. }
      unfold validate_national_id, bindM, create, lift, ret.
      destruct (endpoint (id_request (read file))) as [content|e];
        [|reflexivity].
      destruct (parse_model_output content) as [result|e]; [|reflexivity].
      destruct (py_getitem result (lit "valid")); reflexivity.
  - repeat constructor; vm_compute; intros H;
      repeat destruct H as [H|H]; try discriminate; contradiction.
  - repeat constructor; vm_compute; discriminate.
Qed.

(** C5 (as amended): for a request that passes the upload validations,
    whenever the validator returns a result, the route answers with that
    dictionary as the body, with status 200 if its [valid] entry is true
    and 400 if not. In particular an answer of the model that is not
    JSON gives 400 with the parse-failure dictionary. (When the
    validator raises, the route has no handler: see
    [validate_id_propagates].) *)
Theorem validate_id_status_follows_valid (req : http_request)
    (file : file_storage) (log log' : list request) (result : value) :
  upload req = Some file ->
  filename file <> [] ->
  allowed_type (content_type file) ->
  read file <> [] ->
  validate_national_id endpoint (read file) log = (Return result, log') ->
  exists valid idNumber error,
    result = verdict valid idNumber error
    /\ validate_id endpoint req log
       = (Return (result, if valid then 200%Z else 400%Z), log')
    /\ ((if valid then 200%Z else 400%Z) = 200%Z <-> valid = true)
    /\ (forall s, endpoint (id_request (read file)) = Return (VStr s) ->
          json_loads (strip_fences (strip s)) = None ->
          result = verdict false VNone (VStr PARSE_FAILURE)).
Proof.
  unfold upload. intros Hfile Hn Hct Hr Hv.
  destruct (validate_national_id_shape _ _ _ _ Hv) as (valid & idn & err & E).
  exists valid, idn, err. split; [exact E|]. split; [|split].
  - unfold validate_id. rewrite Hfile.
    destruct (str_eqb (filename file) []) eqn:En;
      [now apply str_eqb_nil in En|].
    destruct (not_allowed (content_type file)) eqn:Ea;
      [now apply not_allowed_spec in Ea|].
    destruct (length (read file) =? 0)%nat eqn:El;
      [now apply length_eqb_0 in El|].
    unfold bindM at 1. rewrite Hv. subst result. reflexivity.
  - destruct valid; split; intros H; try reflexivity; discriminate.
  - intros s Hs Hj. revert Hv.
    unfold validate_national_id, bindM, create, lift. rewrite Hs.
    rewrite (parse_model_output_decode_error s Hj).
    intros H; inversion H; reflexivity.
Qed.

(** When the validator raises, so does the route: it has no handler. *)
Lemma validate_id_propagates (req : http_request) (file : file_storage)
    (log log' : list request) (e : exn) :
  upload req = Some file ->
  filename file <> [] ->
  allowed_type (content_type file) ->
  read file <> [] ->
  validate_national_id endpoint (read file) log = (Raise e, log') ->
  validate_id endpoint req log = (Raise e, log').
Proof.
  unfold upload. intros Hfile Hn Hct Hr Hv. unfold validate_id.
  rewrite Hfile.
  destruct (str_eqb (filename file) []) eqn:En;
    [now apply str_eqb_nil in En|].
  destruct (not_allowed (content_type file)) eqn:Ea;
    [now apply not_allowed_spec in Ea|].
  destruct (length (read file) =? 0)%nat eqn:El;
    [now apply length_eqb_0 in El|].
  unfold bindM at 1. now rewrite Hv.
Qed.

(** The chat route on a body that is a JSON object. *)
Lemma chat_missing_field (d : list (str * value)) (log : list request) :
  dict_get d (lit "message") = None ->
  chat endpoint py_repr exn_str (json_request (VDict d)) log
  = (Return (VDict [(lit "error", VStr (lit "Missing 'message' field"))], 400%Z),
     log).
Proof.
  intros H. unfold chat, json_request, bindM, lift, ret, message_missing.
  cbn [get_json]. destruct d as [|kv d]; [reflexivity|].
  cbn [truthy negb py_in bind]. now rewrite H.
Qed.

(** A body that decodes to a false value ([null], [{}], [[]], the empty
    string, zero, [false]) is answered like a missing field. *)
Lemma chat_falsy_body (data : value) (log : list request) :
  truthy data = false ->
  chat endpoint py_repr exn_str (json_request data) log
  = (Return (VDict [(lit "error", VStr (lit "Missing 'message' field"))], 400%Z),
     log).
Proof.
  intros H. unfold chat, json_request, bindM, lift, ret, message_missing.
  cbn [get_json]. now rewrite H.
Qed.

(** With a [message] entry the route answers 200 with the reply, or 500
    with an error string when anything under the [try] raises. *)
Lemma chat_with_message (d : list (str * value)) (m : value)
    (log : list request) :
  dict_get d (lit "message") = Some m ->
  exists log',
    (exists reply,
        chat endpoint py_repr exn_str (json_request (VDict d)) log
        = (Return (VDict [(lit "reply", VStr reply)], 200%Z), log'))
    \/ (exists e,
        chat endpoint py_repr exn_str (json_request (VDict d)) log
        = (Return (VDict [(lit "error",
                           VStr (lit "Chat service error: " ++ exn_str e))],
                   500%Z), log')).
Proof.
  intros H.
  assert (E : chat endpoint py_repr exn_str (json_request (VDict d)) log
              = try_except
                  (reply <~ BankChatbot.chat endpoint py_repr m
                              (field d (lit "conversationHistory") (VList []))
                              (field d (lit "userContext") (VDict [])) ;;
                   ret (VDict [(lit "reply", VStr reply)], 200%Z))
                  (fun e =>
                     ret (VDict [(lit "error",
                                  VStr (lit "Chat service error: " ++ exn_str e))],
                          500%Z)) log).
  { unfold chat, json_request, bindM, lift, ret, message_missing.
    cbn [get_json]. destruct d as [|kv d]; [discriminate|].
    cbn [truthy negb py_in bind py_getitem py_get]. rewrite H. reflexivity. }
  rewrite E. unfold try_except, bindM, ret.
  destruct (BankChatbot.chat endpoint py_repr m _ _ log) as [[reply|e] log'].
  - exists log'. left. now exists reply.
  - exists log'. right. now exists e.
Qed.

(** C6 (the code departs from the claim): a body that is JSON but not an
    object, and true as a Python value, is not answered with 400 and an
    error string unless the test ["message" not in data] happens to
    answer that the word is absent. For a number or [true] the test
    itself raises [TypeError]; for a string or a list that contains
    ["message"] the test passes and [data["message"]] raises
    [TypeError]. Both are outside the [try], so the exception leaves
    the route. *)
Theorem chat_non_object_body_raises (data : value) (log : list request) :
  truthy data = true ->
  (forall d, data <> VDict d) ->
  py_in (lit "message") data <> Return false ->
  chat endpoint py_repr exn_str (json_request data) log
  = (Raise TypeError, log).
Proof.
  intros Ht Hd Hin.
  unfold chat, json_request, bindM, lift, ret, message_missing.
  cbn [get_json]. rewrite Ht. cbn [negb].
  destruct data as [|b|z|f|s|l|d]; try reflexivity.
  - cbn [py_in bind] in *.
    destruct (contains (lit "message") s); [reflexivity | congruence].
  - cbn [py_in bind] in *.
    destruct (existsb (is_str (lit "message")) l); [reflexivity | congruence].
  - now elim (Hd d).
Qed.

End RouteProperties.

Lemma text_plain_not_allowed : ~ allowed_type (content_type text_upload).
Proof. apply not_allowed_spec. vm_compute. reflexivity. Qed.

Lemma image_png_allowed : allowed_type (content_type png_upload).
Proof.
  exists (lit "image/png"). split; [reflexivity|]. right. left. reflexivity.
Qed.

Lemma validate_id_rejects_before_model_witness :
  exists body,
    validate_id offline (upload_request text_upload) []
    = (Return (body, 400%Z), []).
Proof.
  apply (validate_id_rejects_before_model offline
           (upload_request text_upload) text_upload []).
  - reflexivity.
  - left. exact text_plain_not_allowed.
Defined.

Lemma validate_id_validation_order_witness :
  validate_id offline (upload_request unnamed_upload) []
  = (Return (verdict false VNone (VStr EMPTY_FILENAME), 400%Z), [])
  /\ validate_id offline (upload_request text_upload) []
  = (Return (verdict false VNone (VStr INVALID_TYPE), 400%Z), []).
Proof.
  split.
  - apply (proj1 (proj2 (validate_id_validation_order offline
                           (upload_request unnamed_upload) []))
             unnamed_upload eq_refl).
    reflexivity.
  - apply (proj1 (proj2 (validate_id_validation_order offline
                           (upload_request text_upload) []))
             text_upload eq_refl).
    + discriminate.
    + exact text_plain_not_allowed.
Defined.

Lemma chat_non_object_body_raises_witness :
  chat offline plain_repr plain_exn_str (json_request (VInt 7)) []
    = (Raise TypeError, [])
  /\ chat offline plain_repr plain_exn_str
       (json_request (VStr (lit "a message"))) []
    = (Raise TypeError, [])
  /\ chat offline plain_repr plain_exn_str
       (json_request (VList [VStr (lit "message")])) []
    = (Raise TypeError, []).
Proof.
  split; [|split];
    apply (chat_non_object_body_raises offline plain_repr plain_exn_str);
    (reflexivity || discriminate).
Defined.

Lemma validate_id_status_follows_valid_witness :
  exists valid idNumber error,
    verdict true (VStr (lit "AB123456")) VNone = verdict valid idNumber error
    /\ validate_id answers_valid (upload_request png_upload) []
       = (Return (verdict true (VStr (lit "AB123456")) VNone,
                  if valid then 200%Z else 400%Z),
          [id_request (read png_upload)])
    /\ ((if valid then 200%Z else 400%Z) = 200%Z <-> valid = true)
    /\ (forall s,
          answers_valid (id_request (read png_upload)) = Return (VStr s) ->
          json_loads (strip_fences (strip s)) = None ->
          verdict true (VStr (lit "AB123456")) VNone
          = verdict false VNone (VStr PARSE_FAILURE)).
Proof.
  apply (validate_id_status_follows_valid answers_valid
           (upload_request png_upload) png_upload []
           [id_request (read png_upload)]
           (verdict true (VStr (lit "AB123456")) VNone)).
  - reflexivity.
  - discriminate.
  - exact image_png_allowed.
  - discriminate.
  - vm_compute. reflexivity.
Defined.

(** C5 (as stated) fails: a request that passes the four upload checks
    is not always answered with 200 or 400. When the call to the model
    fails, nothing in the route catches the exception: no response is
    returned at all, and the exception leaves the route after the one
    call. The same happens when the model answers with JSON that is not
    an object. *)
Lemma validate_id_status_counterexample :
  upload (upload_request png_upload) = Some png_upload
  /\ filename png_upload <> []
  /\ allowed_type (content_type png_upload)
  /\ read png_upload <> []
  /\ validate_id offline (upload_request png_upload) []
     = (Raise (UpstreamError 503), [id_request (read png_upload)])
  /\ validate_id answers_array (upload_request png_upload) []
     = (Raise AttributeError, [id_request (read png_upload)])
  /\ ~ (exists body status log',
          validate_id offline (upload_request png_upload) []
          = (Return (body, status), log')).
Proof.
  assert (Hrun : validate_id offline (upload_request png_upload) []
                 = (Raise (UpstreamError 503), [id_request (read png_upload)]))
    by (vm_compute; reflexivity).
  split; [reflexivity|]. split; [discriminate|].
  split; [exact image_png_allowed|]. split; [discriminate|].
  split; [exact Hrun|]. split; [vm_compute; reflexivity|].
  intros (body & status & log' & H). rewrite Hrun in H. discriminate.
Qed.

(* ================================================================== *)
(** * The chat assistant *)
(* ================================================================== *)

(** ** Occurrences *)

Lemma startswith_spec (p s : str) :
  startswith p s = true <-> exists r, s = p ++ r.
Proof.
  revert s; induction p as [|a p IH]; intros s; simpl.
  - split; [intros _; now exists s | reflexivity].
  - destruct s as [|b s].
    + split; [discriminate | intros (r & E); discriminate].
    + rewrite andb_true_iff, N.eqb_eq, IH. split.
      * intros (-> & r & ->). now exists r.
      * intros (r & E). inversion E; subst. split; [reflexivity|now exists r].
Qed.

Lemma contains_spec (needle hay : str) :
  contains needle hay = true <-> occurs needle hay.
Proof.
  unfold occurs. induction hay as [|c hay IH].
  - cbn [contains]. rewrite orb_false_r, startswith_spec. split.
    + intros (r & E). now exists [], r.
    + intros (a & b & E). destruct a; [now exists b | discriminate].
  - cbn [contains]. rewrite orb_true_iff, startswith_spec, IH. split.
    + intros [(r & E) | (a & b & E)].
      * now exists [], r.
      * exists (c :: a), b. now rewrite E.
    + intros (a & b & E). destruct a as [|x a].
      * left. now exists b.
      * right. inversion E; subst. now exists a, b.
Qed.

Lemma occurs_refl (s : str) : occurs s s.
Proof. exists [], []. now rewrite app_nil_r. Qed.

Lemma occurs_app_l (n a b : str) : occurs n a -> occurs n (a ++ b).
Proof.
  intros (x & y & ->). exists x, (y ++ b). now rewrite <- !app_assoc.
Qed.

Lemma occurs_app_r (n a b : str) : occurs n b -> occurs n (a ++ b).
Proof.
  intros (x & y & ->). exists (a ++ x), y. now rewrite <- !app_assoc.
Qed.

Lemma occurs_trans (n m h : str) : occurs n m -> occurs m h -> occurs n h.
Proof.
  intros (x & y & ->) (x' & y' & ->).
  exists (x' ++ x), (y ++ y'). now rewrite <- !app_assoc.
Qed.

Lemma occurs_join (sep p : str) (parts : list str) :
  In p parts -> occurs p (join sep parts).
Proof.
  induction parts as [|q parts IH]; [contradiction|].
  intros [->|Hin].
  - destruct parts; [apply occurs_refl|].
    cbn [join]. apply occurs_app_l, occurs_refl.
  - destruct parts as [|q' parts]; [contradiction|].
    cbn [join]. apply occurs_app_r, occurs_app_r, IH, Hin.
Qed.

Lemma mapM_In {A B} (f : A -> outcome B) (xs : list A) (ys : list B) (x : A) :
  mapM f xs = Return ys -> In x xs ->
  exists y, f x = Return y /\ In y ys.
Proof.
  revert ys; induction xs as [|a xs IH]; intros ys H Hin; [contradiction|].
  cbn [mapM] in H. destruct (f a) as [b|e] eqn:Ea; [|discriminate].
  cbn [bind] in H. destruct (mapM f xs) as [bs|e] eqn:Em; [|discriminate].
  inversion H; subst. destruct Hin as [->|Hin].
  - exists b. split; [exact Ea | now left].
  - destruct (IH bs eq_refl Hin) as (y & Hy & Hy'). exists y.
    split; [exact Hy | now right].
Qed.

Lemma Return_inj {A} (a b : A) : Return a = Return b -> a = b.
Proof. intros H; inversion H; reflexivity. Qed.

Lemma last4_short {A} (l : list A) : (length l <= 4)%nat -> last4 l = l.
Proof.
  intros H. unfold last4.
  replace (length l - 4)%nat with 0%nat by lia. reflexivity.
Qed.

Lemma last4_split {A} (l : list A) :
  (4 < length l)%nat ->
  exists hidden, l = hidden ++ last4 l /\ hidden <> [] /\ length (last4 l) = 4%nat.
Proof.
  intros H. unfold last4. exists (firstn (length l - 4) l).
  split; [now rewrite firstn_skipn|]. split.
  - intros E. apply (f_equal (@length A)) in E.
    rewrite length_firstn in E. simpl in E. lia.
  - rewrite length_skipn. lia.
Qed.

Lemma last4_length {A} (l : list A) : (length (last4 l) <= 4)%nat.
Proof. unfold last4. rewrite length_skipn. lia. Qed.

(** ** A digit string between texts without digits *)

Lemma all_digits_In (s : str) (c : char) :
  all_digits s = true -> In c s -> is_digit c = true.
Proof. intros H Hin. exact (proj1 (forallb_forall _ _) H c Hin). Qed.

(** A digit string cannot straddle a character that is not a digit. *)
Lemma free_glue (s a b : str) (c : char) :
  all_digits s = true -> s <> [] ->
  ~ occurs s a -> ~ occurs s b -> is_digit c = false ->
  ~ occurs s (a ++ c :: b).
Proof.
  intros Hd Hne Ha Hb Hc (x & y & E).
  assert (Hin : In c s -> False).
  { intros Hin. apply (all_digits_In _ _ Hd) in Hin. congruence. }
  apply app_eq_app in E as [l [[E1 E2] | [E1 E2]]].
  - apply app_eq_app in E2 as [l2 [[E3 E4] | [E3 E4]]].
    + destruct l2 as [|c' l2].
      * rewrite app_nil_r in E3. subst l a. apply Ha.
        exists x, []. now rewrite app_nil_r.
      * simpl in E4. injection E4 as Ec _. subst c'. apply Hin. rewrite E3.
        apply in_or_app. right. now left.
    + subst l a. apply Ha. now exists x, l2.
  - destruct l as [|c' l].
    + destruct s as [|c' s']; [congruence|].
      simpl in E2. injection E2 as Ec _. subst c'. apply Hin. now left.
    + simpl in E2. injection E2 as _ Eb. apply Hb. now exists l, y.
Qed.

Lemma free_nil (s : str) : s <> [] -> ~ occurs s [].
Proof.
  intros Hne (x & y & E). symmetry in E.
  apply app_eq_nil in E as [_ E]. apply app_eq_nil in E as [E _]. congruence.
Qed.

Lemma free_short (s x : str) : (length x < length s)%nat -> ~ occurs s x.
Proof.
  intros Hlen (a & b & E). apply (f_equal (@length _)) in E.
  rewrite !length_app in E. lia.
Qed.

Lemma free_lit_app (s l b : str) :
  all_digits s = true -> s <> [] -> no_digit l = true ->
  ~ occurs s b -> ~ occurs s (l ++ b).
Proof.
  intros Hd Hne Hl Hb. induction l as [|c l IH]; [exact Hb|].
  cbn [no_digit forallb] in Hl. apply andb_true_iff in Hl as [Hc Hl].
  apply negb_true_iff in Hc.
  apply (free_glue s [] (l ++ b) c Hd Hne (free_nil s Hne) (IH Hl) Hc).
Qed.

Lemma free_field_lit (s f l b : str) :
  all_digits s = true -> s <> [] -> no_digit l = true -> l <> [] ->
  ~ occurs s f -> ~ occurs s b -> ~ occurs s (f ++ l ++ b).
Proof.
  intros Hd Hne Hl Hnl Hf Hb. destruct l as [|c l]; [congruence|].
  cbn [no_digit forallb] in Hl. apply andb_true_iff in Hl as [Hc Hl].
  apply negb_true_iff in Hc.
  apply (free_glue s f (l ++ b) c Hd Hne Hf); [|exact Hc].
  now apply free_lit_app.
Qed.

Lemma free_field_end (s f l : str) :
  all_digits s = true -> s <> [] -> no_digit l = true -> l <> [] ->
  ~ occurs s f -> ~ occurs s (f ++ l).
Proof.
  intros Hd Hne Hl Hnl Hf. rewrite <- (app_nil_r l).
  apply free_field_lit; auto using free_nil.
Qed.

Lemma free_join (s : str) (parts : list str) :
  all_digits s = true -> s <> [] ->
  (forall p, In p parts -> ~ occurs s p) ->
  ~ occurs s (join [NEWLINE] parts).
Proof.
  intros Hd Hne. induction parts as [|p parts IH]; intros Hp.
  - now apply free_nil.
  - destruct parts as [|q parts]; [apply Hp; now left|].
    cbn [join]. change ([NEWLINE] ++ join [NEWLINE] (q :: parts))
      with (NEWLINE :: join [NEWLINE] (q :: parts)).
    apply free_glue; auto.
    + apply Hp. now left.
    + apply IH. intros p' Hin. apply Hp. now right.
Qed.

Lemma mapM_In_inv {A B} (f : A -> outcome B) (xs : list A) (ys : list B) (y : B) :
  mapM f xs = Return ys -> In y ys ->
  exists x, In x xs /\ f x = Return y.
Proof.
  revert ys; induction xs as [|a xs IH]; intros ys H Hin.
  - apply Return_inj in H. subst ys. contradiction.
  - cbn [mapM] in H. destruct (f a) as [b|e] eqn:Ea; [|discriminate].
    cbn [bind] in H. destruct (mapM f xs) as [bs|e] eqn:Em; [|discriminate].
    apply Return_inj in H. subst ys. destruct Hin as [<-|Hin].
    + exists a. split; [now left | exact Ea].
    + destruct (IH bs eq_refl Hin) as (x & Hx & Hfx). exists x.
      split; [now right | exact Hfx].
Qed.

Section ChatbotProperties.

Variable py_repr : value -> str.

(** The line of an account shows the mask of its number. *)
Lemma account_line_masked (acc : list (str * value)) (number line : str) :
  dict_get acc (lit "accountNumber") = Some (VStr number) ->
  BankChatbot.account_line py_repr (VDict acc) = Return line ->
  occurs (BankChatbot.STARS ++ last4 number) line.
Proof.
  intros Hnum. unfold BankChatbot.account_line, BankChatbot.masked_number.
  cbn [py_get bind]. rewrite Hnum. cbn [py_last4 bind py_str_concat].
  destruct (format_2f false _) as [bal|e]; [|discriminate].
  cbn [bind]. intros H. apply Return_inj in H. subst line.
  apply occurs_app_r, occurs_app_r, occurs_app_r, occurs_app_l, occurs_refl.
Qed.

(** Every account of the context has its line in the block. *)
Lemma build_context_account_line (ctx : list (str * value))
    (accounts : list value) (acc : value) (block : str) :
  dict_get ctx (lit "accounts") = Some (VList accounts) ->
  In acc accounts ->
  BankChatbot._build_context py_repr (VDict ctx) = Return block ->
  exists line,
    BankChatbot.account_line py_repr acc = Return line /\ occurs line block.
Proof.
  intros Haccs Hin. unfold BankChatbot._build_context.
  cbn [py_get bind]. rewrite Haccs.
  unfold BankChatbot.accounts_part.
  destruct accounts as [|a0 accounts']; [contradiction|].
  set (accounts := a0 :: accounts') in *.
  cbn [truthy py_iter bind].
  destruct (mapM (BankChatbot.account_line py_repr) accounts)
    as [lines|e] eqn:Elines;
    [|discriminate].
  cbn [bind].
  destruct (BankChatbot.transactions_part py_repr _) as [tparts|e];
    [|discriminate].
  cbn [bind]. intros H. apply Return_inj in H. subst block.
  destruct (mapM_In _ _ _ acc Elines Hin) as (line & Hline & Hl).
  exists line. split; [exact Hline|].
  apply occurs_join. right. right. apply in_or_app. now left.
Qed.

(** The block shows, for each account with a string number, the mask:
    three stars and the last four characters. *)
Lemma build_context_shows_mask (ctx : list (str * value))
    (accounts : list value) (acc : list (str * value)) (number block : str) :
  dict_get ctx (lit "accounts") = Some (VList accounts) ->
  In (VDict acc) accounts ->
  dict_get acc (lit "accountNumber") = Some (VStr number) ->
  BankChatbot._build_context py_repr (VDict ctx) = Return block ->
  contains (BankChatbot.STARS ++ last4 number) block = true.
Proof.
  intros Haccs Hin Hnum Hblock. apply contains_spec.
  destruct (build_context_account_line _ _ _ _ Haccs Hin Hblock)
    as (line & Hline & Hocc).
  eapply occurs_trans; [|exact Hocc].
  eapply account_line_masked; eassumption.
Qed.

(** The shape of a rendered account line. *)
Lemma account_line_shape (acc : value) (line : str) :
  BankChatbot.account_line py_repr acc = Return line ->
  exists d tail balance_text,
    acc = VDict d /\ (length tail <= 4)%nat
    /\ format_2f false (field d (lit "balance") (VInt 0)) = Return balance_text
    /\ line = lit "  - " ++ text_of py_repr d (lit "type") (VStr (lit "Account"))
              ++ lit " (" ++ (BankChatbot.STARS ++ tail) ++ lit "): "
              ++ balance_text ++ lit " "
              ++ text_of py_repr d (lit "currency") (VStr (lit "USD"))
              ++ lit " [Status: "
              ++ text_of py_repr d (lit "status") (VStr (lit "Active"))
              ++ lit "]".
Proof.
  unfold BankChatbot.account_line, BankChatbot.masked_number.
  destruct acc as [| | | | |l|d]; try discriminate.
  cbn [py_get bind]. fold (field d (lit "accountNumber") (VStr [])).
  destruct (field d (lit "accountNumber") (VStr [])) as [| | | |n|l|d'];
    try discriminate.
  cbn [py_last4 py_str_concat bind].
  fold (field d (lit "balance") (VInt 0)).
  destruct (format_2f false (field d (lit "balance") (VInt 0)))
    as [bal|e] eqn:Eb; [|discriminate].
  cbn [bind]. intros H. apply Return_inj in H. subst line.
  exists d, (last4 n), bal. repeat split; auto using last4_length.
Qed.

Lemma transaction_line_shape (tx : value) (line : str) :
  BankChatbot.transaction_line py_repr tx = Return line ->
  exists d amount_text balance_text,
    tx = VDict d
    /\ format_2f true (field d (lit "amount") (VInt 0)) = Return amount_text
    /\ format_2f false (field d (lit "balanceAfter") (VInt 0))
       = Return balance_text
    /\ line = lit "  - [" ++ text_of py_repr d (lit "date") (VStr [])
              ++ lit "] " ++ text_of py_repr d (lit "type") (VStr [])
              ++ lit ": " ++ amount_text ++ lit " USD — "
              ++ text_of py_repr d (lit "description") (VStr (lit "N/A"))
              ++ lit " (Balance after: " ++ balance_text ++ lit ")".
Proof.
  unfold BankChatbot.transaction_line.
  destruct tx as [| | | | |l|d]; try discriminate.
  cbn [py_get bind].
  fold (field d (lit "amount") (VInt 0)).
  fold (field d (lit "balanceAfter") (VInt 0)).
  destruct (format_2f true (field d (lit "amount") (VInt 0)))
    as [amt|e] eqn:Ea; [|discriminate].
  cbn [bind].
  destruct (format_2f false (field d (lit "balanceAfter") (VInt 0)))
    as [bal|e] eqn:Eb; [|discriminate].
  cbn [bind]. intros H. apply Return_inj in H. subst line.
  exists d, amt, bal. repeat split; auto.
Qed.

Section DigitString.

(** A string of more than four digits, such as a full account number. *)
Variable s : str.
Hypothesis s_digits : all_digits s = true.
Hypothesis s_long : (4 < length s)%nat.

Lemma s_not_nil : s <> [].
Proof. intros E. rewrite E in s_long. simpl in s_long. lia. Qed.

Ltac free_step :=
  first
    [ apply (free_field_lit s); [exact s_digits | exact s_not_nil
                                | reflexivity | discriminate | | ]
    | apply (free_field_end s); [exact s_digits | exact s_not_nil
                                | reflexivity | discriminate | ]
    | apply (free_lit_app s); [exact s_digits | exact s_not_nil
                              | reflexivity | ] ].

Lemma account_line_free (acc : value) (line : str) :
  BankChatbot.account_line py_repr acc = Return line ->
  (forall f, In f (account_fields py_repr acc) -> ~ occurs s f) ->
  ~ occurs s line.
Proof.
  intros Hline Hf.
  destruct (account_line_shape _ _ Hline) as (d & tail & bal & -> & Ht & Eb & ->).
  unfold account_fields, amount_text in Hf. rewrite Eb in Hf.
  assert (Htail : ~ occurs s tail) by (apply free_short; lia).
  apply (free_lit_app s); [exact s_digits | exact s_not_nil | reflexivity |].
  free_step; [apply Hf; simpl; auto 10|].
  rewrite <- app_assoc.
  apply (free_lit_app s); [exact s_digits | exact s_not_nil | reflexivity |].
  free_step; [exact Htail|].
  free_step; [apply Hf; simpl; auto 10|].
  free_step; [apply Hf; simpl; auto 10|].
  free_step. apply Hf; simpl; auto 10.
Qed.

Lemma transaction_line_free (tx : value) (line : str) :
  BankChatbot.transaction_line py_repr tx = Return line ->
  (forall f, In f (transaction_fields py_repr tx) -> ~ occurs s f) ->
  ~ occurs s line.
Proof.
  intros Hline Hf.
  destruct (transaction_line_shape _ _ Hline)
    as (d & amt & bal & -> & Ea & Eb & ->).
  unfold transaction_fields, amount_text in Hf. rewrite Ea, Eb in Hf.
  apply (free_lit_app s); [exact s_digits | exact s_not_nil | reflexivity |].
  free_step; [apply Hf; simpl; auto 10|].
  free_step; [apply Hf; simpl; auto 10|].
  free_step; [apply Hf; simpl; auto 10|].
  free_step; [apply Hf; simpl; auto 10|].
  free_step. apply Hf; simpl; auto 10.
Qed.

Lemma accounts_part_free (accounts : value) (parts : list str) :
  BankChatbot.accounts_part py_repr accounts = Return parts ->
  (forall f, In f (flat_map (account_fields py_repr) (items_of accounts)) ->
             ~ occurs s f) ->
  forall p, In p parts -> ~ occurs s p.
Proof.
  unfold BankChatbot.accounts_part, items_of. intros H Hf p Hp.
  destruct (truthy accounts).
  2:{ apply Return_inj in H. subst parts. contradiction. }
  destruct (py_iter accounts) as [items|e]; [|discriminate].
  cbn [bind] in H.
  destruct (mapM (BankChatbot.account_line py_repr) items)
    as [lines|e] eqn:El; [|discriminate].
  cbn [bind] in H. apply Return_inj in H. subst parts.
  destruct Hp as [<-|Hp].
  - change (NEWLINE :: lit "Accounts:") with ((NEWLINE :: lit "Accounts:") ++ []).
    apply (free_lit_app s); [exact s_digits | exact s_not_nil | reflexivity |].
    apply free_nil, s_not_nil.
  - destruct (mapM_In_inv _ _ _ _ El Hp) as (acc & Hacc & Hline).
    apply (account_line_free acc p Hline).
    intros f Hin. apply Hf. apply in_flat_map. now exists acc.
Qed.

Lemma transactions_part_free (transactions : value) (parts : list str) :
  BankChatbot.transactions_part py_repr transactions = Return parts ->
  (forall f,
      In f (count_text transactions
            ++ flat_map (transaction_fields py_repr) (items_of transactions)) ->
      ~ occurs s f) ->
  forall p, In p parts -> ~ occurs s p.
Proof.
  unfold BankChatbot.transactions_part, items_of, count_text. intros H Hf p Hp.
  destruct (truthy transactions).
  2:{ apply Return_inj in H. subst parts. contradiction. }
  destruct (py_len transactions) as [count|e]; [|discriminate].
  cbn [bind] in H.
  destruct (py_iter transactions) as [items|e]; [|discriminate].
  cbn [bind] in H.
  destruct (mapM (BankChatbot.transaction_line py_repr) items)
    as [lines|e] eqn:El; [|discriminate].
  cbn [bind] in H. apply Return_inj in H. subst parts.
  destruct Hp as [<-|Hp].
  - change (NEWLINE :: lit "Recent Transactions (last " ++ digits count ++ lit "):")
      with ((NEWLINE :: lit "Recent Transactions (last ")
            ++ digits count ++ lit "):").
    apply (free_lit_app s); [exact s_digits | exact s_not_nil | reflexivity |].
    free_step. apply Hf. now left.
  - destruct (mapM_In_inv _ _ _ _ El Hp) as (tx & Htx & Hline).
    apply (transaction_line_free tx p Hline).
    intros f Hin. apply Hf. right. apply in_flat_map. now exists tx.
Qed.

(** A long digit string that none of the other fields shows does not
    occur in the block: the masked account numbers never bring it in. *)
Lemma build_context_free (ctx : list (str * value)) (block : str) :
  BankChatbot._build_context py_repr (VDict ctx) = Return block ->
  (forall f, In f (other_fields py_repr ctx) -> ~ occurs s f) ->
  ~ occurs s block.
Proof.
  unfold BankChatbot._build_context, other_fields. cbn [py_get bind].
  fold (field ctx (lit "accounts") (VList [])).
  fold (field ctx (lit "recentTransactions") (VList [])).
  fold (field ctx (lit "userName") (VStr (lit "Customer"))).
  intros H Hf.
  destruct (BankChatbot.accounts_part py_repr _) as [aparts|e] eqn:Ea;
    [|discriminate].
  cbn [bind] in H.
  destruct (BankChatbot.transactions_part py_repr _) as [tparts|e] eqn:Et;
    [|discriminate].
  cbn [bind] in H. apply Return_inj in H. subst block.
  apply free_join; [exact s_digits | exact s_not_nil |].
  intros p Hp. apply in_app_or in Hp as [Hp|Hp].
  - destruct Hp as [<-|[]].
    apply (free_lit_app s); [exact s_digits | exact s_not_nil | reflexivity |].
    apply Hf. now left.
  - apply in_app_or in Hp as [Hp|Hp].
    + apply (accounts_part_free _ _ Ea); [|exact Hp].
      intros f Hin. apply Hf. apply in_or_app. right.
      apply in_or_app. now left.
    + assert (Htruthy : truthy (field ctx (lit "recentTransactions") (VList []))
                        = true).
      { unfold BankChatbot.transactions_part in Et.
        destruct (truthy _); [reflexivity|].
        apply Return_inj in Et. subst tparts. contradiction. }
      apply (transactions_part_free _ _ Et); [|exact Hp].
      intros f Hin. apply Hf. apply in_or_app. right.
      apply in_or_app. right. now rewrite Htruthy.
Qed.

End DigitString.

(** C4 (as amended): in the block of a context that holds an account
    whose number is a string of more than four digits, the mask (three
    stars and the last four digits) occurs; and the full number occurs
    only if one of the other fields the block shows contains it, the
    account line itself never brings it in. *)
Theorem account_number_masked (ctx : list (str * value))
    (accounts : list value) (acc : list (str * value)) (number block : str) :
  dict_get ctx (lit "accounts") = Some (VList accounts) ->
  In (VDict acc) accounts ->
  dict_get acc (lit "accountNumber") = Some (VStr number) ->
  BankChatbot._build_context py_repr (VDict ctx) = Return block ->
  all_digits number = true ->
  (4 < length number)%nat ->
  contains (BankChatbot.STARS ++ last4 number) block = true
  /\ ((forall f, In f (other_fields py_repr ctx) -> contains number f = false) ->
      contains number block = false).
Proof.
  intros Haccs Hin Hnum Hblock Hd Hlen. split.
  - eapply build_context_shows_mask; eassumption.
  - intros Hf. destruct (contains number block) eqn:E; [|reflexivity].
    apply contains_spec in E. exfalso.
    apply (build_context_free number Hd Hlen ctx block Hblock); [|exact E].
    intros f Hfin Hocc. apply contains_spec in Hocc.
    rewrite (Hf f Hfin) in Hocc. discriminate.
Qed.

(** C10: an account number of four or fewer characters is shown whole
    after the three stars, in the block of any context that holds the
    account; the mask hides characters only of longer numbers (all but
    the last four); and an account without an [accountNumber] entry is
    rendered with the bare stars, the masking raising nothing. *)
Theorem short_account_number_shown (ctx : list (str * value))
    (accounts : list value) (acc : list (str * value)) (number block : str) :
  dict_get ctx (lit "accounts") = Some (VList accounts) ->
  In (VDict acc) accounts ->
  dict_get acc (lit "accountNumber") = Some (VStr number) ->
  BankChatbot._build_context py_repr (VDict ctx) = Return block ->
  ((length number <= 4)%nat ->
     BankChatbot.masked_number (VDict acc) = Return (BankChatbot.STARS ++ number)
     /\ contains (BankChatbot.STARS ++ number) block = true)
  /\ ((4 < length number)%nat ->
      exists hidden shown,
        number = hidden ++ shown /\ hidden <> [] /\ length shown = 4%nat
        /\ BankChatbot.masked_number (VDict acc)
           = Return (BankChatbot.STARS ++ shown))
  /\ (forall other : list (str * value),
        dict_get other (lit "accountNumber") = None ->
        BankChatbot.masked_number (VDict other) = Return BankChatbot.STARS
        /\ (forall balance_text,
              format_2f false (field other (lit "balance") (VInt 0))
              = Return balance_text ->
              exists line,
                BankChatbot.account_line py_repr (VDict other) = Return line
                /\ contains (lit "(***)") line = true)).
Proof.
  intros Haccs Hin Hnum Hblock.
  assert (Hmask : BankChatbot.masked_number (VDict acc)
                  = Return (BankChatbot.STARS ++ last4 number)).
  { unfold BankChatbot.masked_number. cbn [py_get bind]. now rewrite Hnum. }
  split; [|split].
  - intros Hlen. pose proof (last4_short number Hlen) as E4. split.
    + now rewrite Hmask, E4.
    + pose proof (build_context_shows_mask _ _ _ _ _ Haccs Hin Hnum Hblock)
        as Hshown.
      now rewrite E4 in Hshown.
  - intros Hlen. destruct (last4_split number Hlen) as (hidden & E & Hh & Hl).
    exists hidden, (last4 number). auto.
  - intros other Hnone.
    assert (Hm : BankChatbot.masked_number (VDict other)
                 = Return BankChatbot.STARS).
    { unfold BankChatbot.masked_number. cbn [py_get bind]. now rewrite Hnone. }
    split; [exact Hm|].
    intros balance_text Hbal. unfold BankChatbot.account_line.
    rewrite Hm. cbn [py_get bind]. unfold field in Hbal. rewrite Hbal.
    cbn [bind]. eexists. split; [reflexivity|].
    apply contains_spec.
    eexists (lit "  - " ++ py_str py_repr _ ++ lit " "), _.
    rewrite <- !app_assoc. reflexivity.
Qed.

Lemma copy_turns (items turns : list value) :
  Forall2 turn_of items turns ->
  mapM BankChatbot.copy_turn items = Return turns.
Proof.
  induction 1 as [|item msg items turns (d & role & content & -> & Hr & Hc & ->) _ IH].
  - reflexivity.
  - cbn [mapM]. unfold BankChatbot.copy_turn at 1.
    cbn [py_getitem]. rewrite Hr, Hc. cbn [bind]. now rewrite IH.
Qed.

Variable endpoint : request -> outcome value.

(** The converse of [copy_turns]: the loop over the history succeeds only
    on turns. *)
Lemma copied_turns (items turns : list value) :
  mapM BankChatbot.copy_turn items = Return turns ->
  Forall2 turn_of items turns.
Proof.
  revert turns; induction items as [|item items IH]; intros turns H.
  - apply Return_inj in H. subst turns. constructor.
  - cbn [mapM] in H.
    destruct (BankChatbot.copy_turn item) as [msg|e] eqn:Em; [|discriminate].
    cbn [bind] in H.
    destruct (mapM BankChatbot.copy_turn items) as [msgs|e] eqn:Er;
      [|discriminate].
    apply Return_inj in H. subst turns. constructor; [|now apply IH].
    unfold BankChatbot.copy_turn in Em.
    destruct item as [| | | | |l|d]; try discriminate.
    cbn [py_getitem] in Em.
    destruct (dict_get d (lit "role")) as [role|] eqn:Hr; [|discriminate].
    destruct (dict_get d (lit "content")) as [content|] eqn:Hc;
      [|discriminate].
    cbn [bind] in Em. apply Return_inj in Em. subst msg.
    now exists d, role, content.
Qed.

(** C7: for a context that renders to [block] and a history whose items
    are turns, the assistant makes one call; its messages are the system
    persona, the context block, the turns in their order and the new
    user message last; it asks for at most 500 tokens at temperature
    0.7; and it returns the trimmed text of the answer. *)
Theorem chat_sends_expected_messages
    (user_message history user_context : value) (items turns : list value)
    (block : str) (log : list request) :
  BankChatbot._build_context py_repr user_context = Return block ->
  py_iter history = Return items ->
  Forall2 turn_of items turns ->
  let req :=
    BankChatbot.chat_request (expected_messages block turns user_message) in
  snd (BankChatbot.chat endpoint py_repr user_message history
         user_context log) = log ++ [req]
  /\ messages req
     = message (VStr (lit "system")) (VStr BankChatbot.SYSTEM_PROMPT)
       :: message (VStr (lit "system"))
            (VStr (lit "Customer data:" ++ [NEWLINE] ++ block))
       :: turns ++ [message (VStr (lit "user")) user_message]
  /\ max_tokens req = 500%Z
  /\ ~ (temperature req == 0)%Q
  /\ (forall content,
        endpoint req = Return (VStr content) ->
        fst (BankChatbot.chat endpoint py_repr user_message history
               user_context log) = Return (strip content)).
Proof.
  intros Hblock Hiter Hturns req.
  assert (E : BankChatbot.chat endpoint py_repr user_message history
                user_context log
              = (bind (endpoint req) py_strip, log ++ [req])).
  { unfold BankChatbot.chat, bindM, lift, create.
    rewrite Hblock, Hiter. cbn [bind]. rewrite (copy_turns _ _ Hturns).
    unfold req, expected_messages. destruct (endpoint _); reflexivity. }
  rewrite E. repeat split.
  - discriminate.
  - intros content Hc. cbn [fst]. now rewrite Hc.
Qed.

(** No other call is ever made: when the context does not render, or
    the history is not a sequence of turns, the assistant raises before
    it reaches the endpoint. *)
Lemma chat_call_needs_turns
    (user_message history user_context : value) (log : list request) :
  snd (BankChatbot.chat endpoint py_repr user_message history
         user_context log) <> log ->
  exists block items turns,
    BankChatbot._build_context py_repr user_context = Return block
    /\ py_iter history = Return items
    /\ Forall2 turn_of items turns.
Proof.
  unfold BankChatbot.chat, bindM, lift.
  destruct (BankChatbot._build_context py_repr user_context) as [block|e];
    [|intros H; now elim H].
  destruct (py_iter history) as [items|e]; [|intros H; now elim H].
  cbn [bind].
  destruct (mapM BankChatbot.copy_turn items) as [turns|e] eqn:Et;
    [|intros H; now elim H].
  intros _. exists block, items, turns. auto using copied_turns.
Qed.

End ChatbotProperties.

Lemma account_number_masked_witness :
  contains (lit "***7890") ali_block = true
  /\ contains FULL_NUMBER ali_block = false.
Proof.
  destruct (account_number_masked plain_repr ali_context
              [VDict checking_account] checking_account FULL_NUMBER ali_block)
    as [Hmask Hfull].
  - reflexivity.
  - left. reflexivity.
  - reflexivity.
  - vm_compute. reflexivity.
  - reflexivity.
  - vm_compute. lia.
  - split; [exact Hmask|]. apply Hfull.
    intros f Hin. vm_compute in Hin.
    repeat (destruct Hin as [<-|Hin]; [vm_compute; reflexivity|]).
    contradiction.
Defined.

(** C4 (as stated) fails: the description of a transaction is shown as
    the caller sent it, so a context whose account has the number
    1234567890 and whose transaction is described as a transfer to that
    number renders to a block that holds the mask and also the full
    number. *)
Lemma account_number_counterexample :
  exists block,
    BankChatbot._build_context plain_repr
      (VDict (context_of [VDict checking_account] [VDict incoming_transfer]))
    = Return block
    /\ In (VDict checking_account) [VDict checking_account]
    /\ dict_get checking_account (lit "accountNumber") = Some (VStr FULL_NUMBER)
    /\ contains (lit "***7890") block = true
    /\ contains FULL_NUMBER block = true.
Proof.
  eexists. split; [vm_compute; reflexivity|].
  split; [now left|]. repeat split.
Qed.

Lemma short_account_number_shown_witness :
  BankChatbot.masked_number (VDict short_account) = Return (lit "***42")
  /\ contains (lit "***42") short_block = true.
Proof.
  apply (short_account_number_shown plain_repr short_context
           [VDict short_account] short_account (lit "42") short_block).
  - reflexivity.
  - left. reflexivity.
  - reflexivity.
  - vm_compute. reflexivity.
  - vm_compute. lia.
Defined.

Lemma earlier_turns_are_turns : Forall2 turn_of earlier_turns earlier_turns.
Proof.
  repeat constructor;
    eexists _, _, _; (split; [reflexivity|]); repeat split.
Qed.

Lemma chat_sends_expected_messages_witness :
  let req :=
    BankChatbot.chat_request
      (expected_messages ali_block earlier_turns
         (VStr (lit "What's my balance?"))) in
  BankChatbot.chat answers_balance plain_repr
    (VStr (lit "What's my balance?")) (VList earlier_turns)
    (VDict ali_context) []
  = (Return (lit "Your balance is 1520.50 USD."), [req])
  /\ max_tokens req = 500%Z
  /\ ~ (temperature req == 0)%Q.
Proof.
  intros req.
  destruct (chat_sends_expected_messages plain_repr answers_balance
              (VStr (lit "What's my balance?")) (VList earlier_turns)
              (VDict ali_context) earlier_turns earlier_turns ali_block [])
    as (Hlog & _ & Hmax & Htemp & Hret).
  - vm_compute. reflexivity.
  - reflexivity.
  - exact earlier_turns_are_turns.
  - split; [|split; [exact Hmax | exact Htemp]].
    rewrite (surjective_pairing (BankChatbot.chat _ _ _ _ _ _)).
    rewrite Hlog, (Hret _ eq_refl). reflexivity.
Defined.

(* ================================================================== *)
(** * Further properties of the validator and its route *)
(* ================================================================== *)

Lemma verdict_inj (b b' : bool) (i i' e e' : value) :
  verdict b i e = verdict b' i' e' -> b = b' /\ i = i' /\ e = e'.
Proof. unfold verdict. intros H. injection H as -> -> ->. auto. Qed.

(** What [parse_model_output] can do: answer with a dictionary of the
    result shape, or raise [AttributeError]. *)
Lemma parse_model_output_outcomes (content : value) :
  (exists valid idNumber error,
      parse_model_output content = Return (verdict valid idNumber error))
  \/ parse_model_output content = Raise AttributeError.
Proof.
  unfold parse_model_output.
  destruct content as [| | | |s| |]; try (right; reflexivity).
  cbn [py_strip bind].
  destruct (json_loads (strip_fences (strip s))) as [v|]; [|left; eauto].
  destruct v; try (right; reflexivity). left. cbn [py_get bind]. eauto.
Qed.

(** A [valid] of true comes from a JSON object with a true entry. *)
Lemma parse_model_output_valid (content idNumber error : value) :
  parse_model_output content = Return (verdict true idNumber error) ->
  exists s d v,
    content = VStr s
    /\ json_loads (strip_fences (strip s)) = Some (VDict d)
    /\ dict_get d (lit "valid") = Some v
    /\ truthy v = true
    /\ idNumber = field d (lit "idNumber") VNone
    /\ error = field d (lit "error") VNone.
Proof.
  unfold parse_model_output. intros H.
  destruct content as [| | | |s| |]; try discriminate.
  cbn [py_strip bind] in H.
  destruct (json_loads (strip_fences (strip s))) as [v|] eqn:Ej.
  - destruct v as [| | | | | |d]; try discriminate.
    cbn [py_get bind] in H. apply Return_inj in H.
    apply verdict_inj in H as (Hv & Hi & He).
    destruct (dict_get d (lit "valid")) as [v|] eqn:Ev; [|discriminate].
    exists s, d, v. unfold field.
    split; [reflexivity|]. split; [exact Ej|]. split; [exact Ev|].
    split; [exact Hv|]. split; congruence.
  - apply Return_inj in H. apply verdict_inj in H as (Hv & _). discriminate.
Qed.

Section ValidatorMore.

Variable endpoint : request -> outcome value.

Lemma validate_national_id_run (image_bytes : list Byte.byte)
    (log : list request) :
  validate_national_id endpoint image_bytes log
  = (bind (endpoint (id_request image_bytes)) parse_model_output,
     log ++ [id_request image_bytes]).
Proof.
  unfold validate_national_id, bindM, create, lift.
  destruct (endpoint (id_request image_bytes)); reflexivity.
Qed.

(** X1: [validate_national_id] makes exactly one call to the model,
    whatever happens afterwards; when that call raises, the same
    exception is raised; when the answer holds no text, [.strip()]
    raises [AttributeError]; and whatever the function returns is a
    dictionary of the result shape. *)
Theorem validate_national_id_outcomes (image_bytes : list Byte.byte)
    (log : list request) :
  snd (validate_national_id endpoint image_bytes log)
  = log ++ [id_request image_bytes]
  /\ (forall e,
        endpoint (id_request image_bytes) = Raise e ->
        fst (validate_national_id endpoint image_bytes log) = Raise e)
  /\ (forall content,
        endpoint (id_request image_bytes) = Return content ->
        (forall s, content <> VStr s) ->
        fst (validate_national_id endpoint image_bytes log)
        = Raise AttributeError)
  /\ (forall result,
        fst (validate_national_id endpoint image_bytes log) = Return result ->
        exists valid idNumber error, result = verdict valid idNumber error).
Proof.
  rewrite validate_national_id_run. cbn [fst snd].
  split; [reflexivity|]. split; [|split].
  - intros e He. now rewrite He.
  - intros content Hc Hs. rewrite Hc. cbn [bind].
    destruct content as [| | | |s| |]; try reflexivity. now elim (Hs s).
  - intros result H.
    destruct (endpoint (id_request image_bytes)) as [content|e];
      [|discriminate].
    cbn [bind] in H.
    destruct (parse_model_output_outcomes content)
      as [(valid & idn & err & Hp) | Hp]; rewrite Hp in H; [|discriminate].
    apply Return_inj in H. subst result. eauto.
Qed.

(** X2: the validator reports [valid] true only when the model answered
    with text that parses, after trimming and fence stripping, as a JSON
    object whose [valid] entry is true as a Python value; a parse
    failure or a missing entry never counts as valid. *)
Theorem valid_needs_model_approval (image_bytes : list Byte.byte)
    (log log' : list request) (idNumber error : value) :
  validate_national_id endpoint image_bytes log
  = (Return (verdict true idNumber error), log') ->
  exists s d v,
    endpoint (id_request image_bytes) = Return (VStr s)
    /\ json_loads (strip_fences (strip s)) = Some (VDict d)
    /\ dict_get d (lit "valid") = Some v
    /\ truthy v = true
    /\ idNumber = field d (lit "idNumber") VNone
    /\ error = field d (lit "error") VNone.
Proof.
  rewrite validate_national_id_run. intros H.
  injection H as H _.
  destruct (endpoint (id_request image_bytes)) as [content|e];
    [|discriminate].
  cbn [bind] in H.
  destruct (parse_model_output_valid _ _ _ H)
    as (s & d & v & -> & Hj & Hd & Ht & Hi & He).
  exists s, d, v. auto 10.
Qed.


(** X4: the validate-id route has no handler around the model call: when
    the call raises, the same exception leaves the route, after the one
    call. *)
Theorem validate_id_upstream_failure (req : http_request)
    (file : file_storage) (log : list request) (e : exn) :
  upload req = Some file ->
  filename file <> [] ->
  allowed_type (content_type file) ->
  read file <> [] ->
  endpoint (id_request (read file)) = Raise e ->
  validate_id endpoint req log = (Raise e, log ++ [id_request (read file)]).
Proof.
  intros Hfile Hn Hct Hr He.
  apply (validate_id_propagates endpoint req file log _ e Hfile Hn Hct Hr).
  now rewrite validate_national_id_run, He.
Qed.

(** The route, once the upload checks are passed. *)
Lemma validate_id_delegates (req : http_request) (file : file_storage)
    (log : list request) :
  upload req = Some file ->
  filename file <> [] ->
  allowed_type (content_type file) ->
  read file <> [] ->
  validate_id endpoint req log
  = (result <~ validate_national_id endpoint (read file) ;;
     valid <~ lift (py_getitem result (lit "valid")) ;;
     ret (result, if truthy valid then 200%Z else 400%Z)) log.
Proof.
  unfold upload. intros Hfile Hn Hct Hr. unfold validate_id. rewrite Hfile.
  destruct (str_eqb (filename file) []) eqn:En;
    [now apply str_eqb_nil in En|].
  destruct (not_allowed (content_type file)) eqn:Ea;
    [now apply not_allowed_spec in Ea|].
  destruct (length (read file) =? 0)%nat eqn:El;
    [now apply length_eqb_0 in El|].
  reflexivity.
Qed.

(** X5: once the upload checks are passed, only the bytes of the upload
    matter: neither its file name nor its content type reaches the
    model, so two uploads with the same bytes are answered alike. *)
Theorem validate_id_depends_on_bytes (req1 req2 : http_request)
    (file1 file2 : file_storage) (log : list request) :
  upload req1 = Some file1 ->
  upload req2 = Some file2 ->
  filename file1 <> [] -> filename file2 <> [] ->
  allowed_type (content_type file1) -> allowed_type (content_type file2) ->
  read file1 = read file2 ->
  read file1 <> [] ->
  validate_id endpoint req1 log = validate_id endpoint req2 log.
Proof.
  intros H1 H2 Hn1 Hn2 Hc1 Hc2 Hr Hne.
  rewrite (validate_id_delegates req1 file1 log H1 Hn1 Hc1 Hne).
  rewrite (validate_id_delegates req2 file2 log H2 Hn2 Hc2);
    [|now rewrite <- Hr].
  now rewrite Hr.
Qed.

(** X6: every answer of the validate-id route, from its own checks or
    from the model, is a dictionary of the result shape, with status 200
    when its [valid] entry is true and 400 when it is false. *)
Theorem validate_id_response_shape (req : http_request)
    (log log' : list request) (body : value) (status : Z) :
  validate_id endpoint req log = (Return (body, status), log') ->
  exists valid idNumber error,
    body = verdict valid idNumber error
    /\ status = (if valid then 200%Z else 400%Z).
Proof.
  unfold validate_id.
  destruct (files_get (files req) (lit "image")) as [file|].
  2:{ intros H. injection H as <- <- _. now exists false, VNone, (VStr NO_IMAGE). }
  destruct (str_eqb (filename file) []).
  { intros H. injection H as <- <- _.
    now exists false, VNone, (VStr EMPTY_FILENAME). }
  destruct (not_allowed (content_type file)).
  { intros H. injection H as <- <- _.
    now exists false, VNone, (VStr INVALID_TYPE). }
  destruct (length (read file) =? 0)%nat.
  { intros H. injection H as <- <- _.
    now exists false, VNone, (VStr EMPTY_FILE). }
  unfold bindM at 1. rewrite validate_national_id_run.
  destruct (bind (endpoint (id_request (read file))) parse_model_output)
    as [result|e] eqn:Er; [|discriminate].
  assert (Hshape : exists valid idNumber error,
             result = verdict valid idNumber error).
  { destruct (endpoint (id_request (read file))) as [content|e];
      [|discriminate].
    cbn [bind] in Er.
    destruct (parse_model_output_outcomes content) as [(b & i & e & H)|H];
      rewrite H in Er; [|discriminate].
    apply Return_inj in Er. eauto. }
  destruct Hshape as (valid & idn & err & ->).
  unfold bindM, lift, ret. cbn [py_getitem verdict].
  intros H. injection H as <- <- _.
  exists valid, idn, err. split; reflexivity.
Qed.

(** X7: the route answers 200 only after the checks on the upload passed
    and the one call to the model gave text that parses as a JSON object
    with a true [valid] entry. *)
Theorem validate_id_ok_needs_model (req : http_request)
    (log log' : list request) (body : value) :
  validate_id endpoint req log = (Return (body, 200%Z), log') ->
  exists file s d v,
    upload req = Some file
    /\ filename file <> []
    /\ allowed_type (content_type file)
    /\ read file <> []
    /\ log' = log ++ [id_request (read file)]
    /\ endpoint (id_request (read file)) = Return (VStr s)
    /\ json_loads (strip_fences (strip s)) = Some (VDict d)
    /\ dict_get d (lit "valid") = Some v
    /\ truthy v = true.
Proof.
  unfold validate_id, upload.
  destruct (files_get (files req) (lit "image")) as [file|];
    [|intros H; discriminate].
  destruct (str_eqb (filename file) []) eqn:En; [intros H; discriminate|].
  destruct (not_allowed (content_type file)) eqn:Ea; [intros H; discriminate|].
  destruct (length (read file) =? 0)%nat eqn:El; [intros H; discriminate|].
  unfold bindM at 1.
  destruct (validate_national_id endpoint (read file) log)
    as [[result|e] log1] eqn:Ev; [|intros H; discriminate].
  assert (Hlog : log1 = log ++ [id_request (read file)]).
  { pose proof Ev as Ev'. rewrite validate_national_id_run in Ev'.
    now injection Ev' as _ <-. }
  destruct (validate_national_id_shape endpoint _ _ _ _ Ev)
    as (valid & idn & err & ->).
  unfold bindM, lift, ret. cbn [py_getitem verdict].
  assert (Hget : dict_get
            [(lit "valid", VBool valid); (lit "idNumber", idn);
             (lit "error", err)] (lit "valid") = Some (VBool valid))
    by reflexivity.
  rewrite Hget. cbn [truthy].
  destruct valid; intros H; [|discriminate].
  injection H as _ <-.
  rewrite validate_national_id_run in Ev. injection Ev as Ev _.
  destruct (endpoint (id_request (read file))) as [content|e] eqn:Ee;
    [|discriminate].
  cbn [bind] in Ev.
  destruct (parse_model_output_valid _ _ _ Ev)
    as (s & d & v & -> & Hj & Hd & Ht & _).
  exists file, s, d, v. repeat split; auto.
  - intros E. now rewrite (proj2 (str_eqb_nil _) E) in En.
  - destruct (not_allowed (content_type file)) eqn:E; [discriminate|].
    destruct (content_type file) as [t|]; [|discriminate].
    cbn [not_allowed] in E. apply negb_false_iff in E.
    apply existsb_exists in E as (x & Hin & Hx). apply str_eqb_eq in Hx.
    subst x. now exists t.
  - intros E. rewrite E in El. discriminate.
Qed.

End ValidatorMore.

Lemma image_webp_allowed : allowed_type (content_type webp_upload).
Proof.
  exists (lit "image/webp"). split; [reflexivity|].
  right. right. right. left. reflexivity.
Qed.

Lemma validate_national_id_outcomes_witness :
  snd (validate_national_id offline (read png_upload) [])
  = [] ++ [id_request (read png_upload)]
  /\ fst (validate_national_id offline (read png_upload) [])
     = Raise (UpstreamError 503).
Proof.
  destruct (validate_national_id_outcomes offline (read png_upload) [])
    as (Hlog & Hraise & _).
  split; [exact Hlog | apply Hraise; reflexivity].
Defined.

Lemma valid_needs_model_approval_witness :
  exists s d v,
    answers_valid (id_request (read png_upload)) = Return (VStr s)
    /\ json_loads (strip_fences (strip s)) = Some (VDict d)
    /\ dict_get d (lit "valid") = Some v
    /\ truthy v = true
    /\ VStr (lit "AB123456") = field d (lit "idNumber") VNone
    /\ VNone = field d (lit "error") VNone.
Proof.
  apply (valid_needs_model_approval answers_valid (read png_upload) []
           [id_request (read png_upload)] (VStr (lit "AB123456")) VNone).
  vm_compute. reflexivity.
Defined.


Lemma validate_id_upstream_failure_witness :
  validate_id offline (upload_request png_upload) []
  = (Raise (UpstreamError 503), [id_request (read png_upload)]).
Proof.
  apply (validate_id_upstream_failure offline (upload_request png_upload)
           png_upload [] (UpstreamError 503)).
  - reflexivity.
  - discriminate.
  - exact image_png_allowed.
  - discriminate.
  - reflexivity.
Defined.

Lemma validate_id_depends_on_bytes_witness :
  validate_id answers_valid (upload_request png_upload) []
  = validate_id answers_valid (upload_request webp_upload) [].
Proof.
  apply (validate_id_depends_on_bytes answers_valid
           (upload_request png_upload) (upload_request webp_upload)
           png_upload webp_upload []).
  - reflexivity.
  - reflexivity.
  - discriminate.
  - discriminate.
  - exact image_png_allowed.
  - exact image_webp_allowed.
  - reflexivity.
  - discriminate.
Defined.

Lemma validate_id_response_shape_witness :
  exists valid idNumber error,
    verdict false VNone (VStr INVALID_TYPE) = verdict valid idNumber error
    /\ 400%Z = (if valid then 200%Z else 400%Z).
Proof.
  apply (validate_id_response_shape offline (upload_request text_upload)
           [] []).
  vm_compute. reflexivity.
Defined.

Lemma validate_id_ok_needs_model_witness :
  exists file s d v,
    upload (upload_request png_upload) = Some file
    /\ filename file <> []
    /\ allowed_type (content_type file)
    /\ read file <> []
    /\ [id_request (read png_upload)] = [] ++ [id_request (read file)]
    /\ answers_valid (id_request (read file)) = Return (VStr s)
    /\ json_loads (strip_fences (strip s)) = Some (VDict d)
    /\ dict_get d (lit "valid") = Some v
    /\ truthy v = true.
Proof.
  apply (validate_id_ok_needs_model answers_valid
           (upload_request png_upload) [] [id_request (read png_upload)]
           (verdict true (VStr (lit "AB123456")) VNone)).
  vm_compute. reflexivity.
Defined.

(** ** The image in the request *)

Lemma below_enumerated (n : nat) (i : N) :
  (i < N.of_nat n)%N -> In i (map N.of_nat (seq 0 n)).
Proof.
  intros H. apply in_map_iff. exists (N.to_nat i).
  split; [apply N2Nat.id | apply in_seq; lia].
Qed.

Lemma b64_index_char (i : N) :
  (i < 64)%N -> b64_index (b64_char i) = i /\ (b64_char i =? 61)%N = false.
Proof.
  intros H. apply (below_enumerated 64) in H.
  assert (Hall : forallb (fun i => (b64_index (b64_char i) =? i)%N
                                   && negb (b64_char i =? 61)%N)
                   (map N.of_nat (seq 0 64)) = true) by (vm_compute; reflexivity).
  apply (proj1 (forallb_forall _ _) Hall) in H.
  apply andb_true_iff in H as [H1 H2].
  split; [now apply N.eqb_eq | now apply negb_true_iff].
Qed.

Ltac b64_arith := zify; Z.to_euclidean_division_equations; lia.

Lemma b64decode_groups (n : nat) :
  forall bs : list N,
    (length bs <= n)%nat ->
    Forall (fun b => (b <= 255)%N) bs ->
    b64decode (b64_groups bs) = bs.
Proof.
  induction n as [|n IH]; intros bs Hlen Hbs.
  - destruct bs; [reflexivity | simpl in Hlen; lia].
  - destruct bs as [|a [|b [|c r]]]; [reflexivity | | |].
    + inversion Hbs as [|? ? Ha _]; subst.
      cbn [b64_groups b64decode].
      destruct (b64_index_char (a / 4)) as [-> _]; [b64_arith|].
      destruct (b64_index_char (a mod 4 * 16)) as [-> _]; [b64_arith|].
      rewrite N.eqb_refl. f_equal. b64_arith.
    + inversion Hbs as [|? ? Ha Hbs']; subst.
      inversion Hbs' as [|? ? Hb _]; subst.
      cbn [b64_groups b64decode].
      destruct (b64_index_char (a / 4)) as [-> _]; [b64_arith|].
      destruct (b64_index_char (a mod 4 * 16 + b / 16)) as [-> _];
        [b64_arith|].
      destruct (b64_index_char (b mod 16 * 4)) as [-> ->]; [b64_arith|].
      rewrite N.eqb_refl. f_equal; [b64_arith|]. f_equal. b64_arith.
    + inversion Hbs as [|? ? Ha Hbs']; subst.
      inversion Hbs' as [|? ? Hb Hbs'']; subst.
      inversion Hbs'' as [|? ? Hc Hr]; subst.
      cbn [b64_groups app b64decode].
      destruct (b64_index_char (a / 4)) as [-> _]; [b64_arith|].
      destruct (b64_index_char (a mod 4 * 16 + b / 16)) as [-> _];
        [b64_arith|].
      destruct (b64_index_char (b mod 16 * 4 + c / 64)) as [-> ->];
        [b64_arith|].
      destruct (b64_index_char (c mod 64)) as [-> ->]; [b64_arith|].
      cbn [app]. rewrite IH; [|simpl in Hlen; lia | exact Hr].
      f_equal; [b64_arith|]. f_equal; [b64_arith|]. f_equal. b64_arith.
Qed.

Lemma bytes_bounded (image_bytes : list Byte.byte) :
  Forall (fun b => (b <= 255)%N) (map Byte.to_N image_bytes).
Proof.
  induction image_bytes as [|x r IH]; constructor; [|exact IH].
  apply Strings.Byte.to_N_bounded.
Qed.

Lemma bytes_of_N_inj (a b : list Byte.byte) :
  map Byte.to_N a = map Byte.to_N b -> a = b.
Proof.
  revert b; induction a as [|x a IH]; intros [|y b] H; try discriminate.
  - reflexivity.
  - cbn [map] in H. injection H as Hxy Hab. f_equal; [|now apply IH].
    pose proof (Strings.Byte.of_to_N x) as Hx.
    pose proof (Strings.Byte.of_to_N y) as Hy.
    rewrite Hxy in Hx. congruence.
Qed.

(** X8: the image travels in the request as a data URL labelled
    [image/jpeg] (whatever the upload was) that holds the base64 text of
    the bytes, and that text reads back to exactly the uploaded bytes. *)
Theorem sent_image_round_trip (image_bytes : list Byte.byte) :
  sent_image_url (id_request image_bytes)
  = Some (lit "data:image/jpeg;base64," ++ b64encode image_bytes)
  /\ b64decode (b64encode image_bytes) = map Byte.to_N image_bytes.
Proof.
  split; [reflexivity|]. unfold b64encode.
  apply (b64decode_groups (length (map Byte.to_N image_bytes)));
    [lia | apply bytes_bounded].
Qed.

(** X9: different images give different requests: the request of the
    validator determines the uploaded bytes. *)
Theorem id_request_injective (bytes1 bytes2 : list Byte.byte) :
  bytes1 <> bytes2 -> id_request bytes1 <> id_request bytes2.
Proof.
  intros Hne H. apply Hne. apply (f_equal sent_image_url) in H.
  assert (Hurl : forall b, sent_image_url (id_request b)
                 = Some (lit "data:image/jpeg;base64," ++ b64encode b))
    by reflexivity.
  rewrite !Hurl in H. apply (f_equal (option_map (skipn 23))) in H.
  cbn [option_map] in H.
  assert (Hskip : forall t : str,
             skipn 23 (lit "data:image/jpeg;base64," ++ t) = t)
    by reflexivity.
  rewrite !Hskip in H. injection H as H.
  apply bytes_of_N_inj.
  rewrite <- (b64decode_groups (length (map Byte.to_N bytes1))
                (map Byte.to_N bytes1) (le_n _) (bytes_bounded bytes1)).
  rewrite <- (b64decode_groups (length (map Byte.to_N bytes2))
                (map Byte.to_N bytes2) (le_n _) (bytes_bounded bytes2)).
  unfold b64encode in H. now rewrite H.
Qed.

Lemma id_request_injective_witness :
  read png_upload <> [Byte.x50; Byte.x89]
  /\ id_request (read png_upload) <> id_request [Byte.x50; Byte.x89].
Proof.
  assert (Hne : read png_upload <> [Byte.x50; Byte.x89]) by discriminate.
  exact (conj Hne (id_request_injective _ _ Hne)).
Defined.

(* ================================================================== *)
(** * Further properties of the chat assistant and its route *)
(* ================================================================== *)

Section ChatMore.

Variable endpoint : request -> outcome value.
Variable py_repr : value -> str.
Variable exn_str : exn -> str.

(** The assistant, once the context is rendered and the history copied. *)
Lemma chatbot_chat_run (user_message history user_context : value)
    (items turns : list value) (block : str) (log : list request) :
  BankChatbot._build_context py_repr user_context = Return block ->
  py_iter history = Return items ->
  mapM BankChatbot.copy_turn items = Return turns ->
  BankChatbot.chat endpoint py_repr user_message history user_context log
  = (bind (endpoint (BankChatbot.chat_request
                       (expected_messages block turns user_message)))
       py_strip,
     log ++ [BankChatbot.chat_request
               (expected_messages block turns user_message)]).
Proof.
  intros Hblock Hiter Hturns. unfold BankChatbot.chat, bindM, lift, create.
  rewrite Hblock, Hiter. cbn [bind]. rewrite Hturns.
  unfold expected_messages. destruct (endpoint _); reflexivity.
Qed.

(** The assistant makes at most one call. *)
Lemma chatbot_chat_log (user_message history user_context : value)
    (log : list request) :
  snd (BankChatbot.chat endpoint py_repr user_message history
         user_context log) = log
  \/ exists req,
      snd (BankChatbot.chat endpoint py_repr user_message history
             user_context log) = log ++ [req].
Proof.
  unfold BankChatbot.chat, bindM, lift, create.
  destruct (BankChatbot._build_context py_repr user_context);
    [|now left].
  destruct (py_iter history) as [items|e]; [|now left]. cbn [bind].
  destruct (mapM BankChatbot.copy_turn items); [|now left].
  right. eexists. destruct (endpoint _); reflexivity.
Qed.

(** X10: the assistant either raises before it reaches the model (the
    context does not render, or the history is not a sequence of turns)
    and makes no call, or makes exactly one call and then returns the
    trimmed text of the answer, raises [AttributeError] when the answer
    holds no text, or raises what the call raised. *)
Theorem chatbot_chat_outcomes (user_message history user_context : value)
    (log : list request) :
  (snd (BankChatbot.chat endpoint py_repr user_message history
          user_context log) = log
   /\ exists e,
       fst (BankChatbot.chat endpoint py_repr user_message history
              user_context log) = Raise e)
  \/ exists req,
      snd (BankChatbot.chat endpoint py_repr user_message history
             user_context log) = log ++ [req]
      /\ ((exists content,
              endpoint req = Return (VStr content)
              /\ fst (BankChatbot.chat endpoint py_repr user_message history
                        user_context log) = Return (strip content))
          \/ (exists v,
              endpoint req = Return v /\ (forall s, v <> VStr s)
              /\ fst (BankChatbot.chat endpoint py_repr user_message history
                        user_context log) = Raise AttributeError)
          \/ (exists e,
              endpoint req = Raise e
              /\ fst (BankChatbot.chat endpoint py_repr user_message history
                        user_context log) = Raise e)).
Proof.
  destruct (BankChatbot._build_context py_repr user_context)
    as [block|e] eqn:Hblock.
  2:{ left. unfold BankChatbot.chat, bindM, lift. rewrite Hblock.
      split; [reflexivity | now exists e]. }
  destruct (py_iter history) as [items|e] eqn:Hiter.
  2:{ left. unfold BankChatbot.chat, bindM, lift. rewrite Hblock, Hiter.
      split; [reflexivity | now exists e]. }
  destruct (mapM BankChatbot.copy_turn items) as [turns|e] eqn:Hturns.
  2:{ left. unfold BankChatbot.chat, bindM, lift. rewrite Hblock, Hiter.
      cbn [bind]. rewrite Hturns. split; [reflexivity | now exists e]. }
  right. rewrite (chatbot_chat_run _ _ _ _ _ _ _ Hblock Hiter Hturns).
  eexists. split; [reflexivity|]. cbn [fst].
  destruct (endpoint _) as [v|e] eqn:He.
  - destruct v as [| | | |s| |];
      try (right; left; eexists; split; [reflexivity|];
           split; [discriminate | reflexivity]).
    left. exists s. split; reflexivity.
  - right. right. exists e. split; reflexivity.
Qed.

(** The route on an object with a [message] entry: the call of the
    assistant under the [try]. *)
Lemma chat_route_delegates (d : list (str * value)) (m : value)
    (log : list request) :
  dict_get d (lit "message") = Some m ->
  chat endpoint py_repr exn_str (json_request (VDict d)) log
  = try_except
      (reply <~ BankChatbot.chat endpoint py_repr m
                  (field d (lit "conversationHistory") (VList []))
                  (field d (lit "userContext") (VDict [])) ;;
       ret (VDict [(lit "reply", VStr reply)], 200%Z))
      (fun e =>
         ret (VDict [(lit "error",
                      VStr (lit "Chat service error: " ++ exn_str e))],
              500%Z)) log.
Proof.
  intros H. unfold chat, json_request, bindM, lift, ret, message_missing.
  cbn [get_json]. destruct d as [|kv d]; [discriminate|].
  cbn [truthy negb py_in bind py_getitem py_get]. rewrite H. reflexivity.
Qed.

(** X11: a body that decodes to a false Python value ([null], [{}],
    [[]], the empty string, zero, [false]) and an object without a
    [message] entry are both answered with 400 and the missing-field
    error, without any call to the model. *)
Theorem chat_route_rejects_missing_message (data : value)
    (log : list request) :
  truthy data = false
  \/ (exists d, data = VDict d /\ dict_get d (lit "message") = None) ->
  chat endpoint py_repr exn_str (json_request data) log
  = (Return (VDict [(lit "error", VStr (lit "Missing 'message' field"))],
             400%Z), log).
Proof.
  intros [H | (d & -> & H)].
  - now apply chat_falsy_body.
  - now apply chat_missing_field.
Qed.

(** X12: for an object with a [message], a context that renders and a
    history of turns, when the model answers with text the route answers
    200 with the trimmed text as [reply], after one call with the
    expected messages; a missing [conversationHistory] counts as no
    turns and a missing [userContext] as an empty context. *)
Theorem chat_route_reply (d : list (str * value)) (m : value)
    (items turns : list value) (block content : str) (log : list request) :
  dict_get d (lit "message") = Some m ->
  BankChatbot._build_context py_repr (field d (lit "userContext") (VDict []))
  = Return block ->
  py_iter (field d (lit "conversationHistory") (VList [])) = Return items ->
  Forall2 turn_of items turns ->
  endpoint (BankChatbot.chat_request (expected_messages block turns m))
  = Return (VStr content) ->
  chat endpoint py_repr exn_str (json_request (VDict d)) log
  = (Return (VDict [(lit "reply", VStr (strip content))], 200%Z),
     log ++ [BankChatbot.chat_request (expected_messages block turns m)]).
Proof.
  intros Hm Hblock Hiter Hturns He.
  rewrite (chat_route_delegates d m log Hm). unfold try_except, bindM, ret.
  rewrite (chatbot_chat_run _ _ _ _ _ _ _ Hblock Hiter
             (copy_turns _ _ Hturns)).
  rewrite He. reflexivity.
Qed.

(** X13: when the call to the model raises, the route catches it and
    answers 500 with the text of the exception after the prefix
    [Chat service error: ]. *)
Theorem chat_route_upstream_error (d : list (str * value)) (m : value)
    (items turns : list value) (block : str) (e : exn) (log : list request) :
  dict_get d (lit "message") = Some m ->
  BankChatbot._build_context py_repr (field d (lit "userContext") (VDict []))
  = Return block ->
  py_iter (field d (lit "conversationHistory") (VList [])) = Return items ->
  Forall2 turn_of items turns ->
  endpoint (BankChatbot.chat_request (expected_messages block turns m))
  = Raise e ->
  chat endpoint py_repr exn_str (json_request (VDict d)) log
  = (Return (VDict [(lit "error",
                     VStr (lit "Chat service error: " ++ exn_str e))],
             500%Z),
     log ++ [BankChatbot.chat_request (expected_messages block turns m)]).
Proof.
  intros Hm Hblock Hiter Hturns He.
  rewrite (chat_route_delegates d m log Hm). unfold try_except, bindM, ret.
  rewrite (chatbot_chat_run _ _ _ _ _ _ _ Hblock Hiter
             (copy_turns _ _ Hturns)).
  rewrite He. reflexivity.
Qed.

(** X14: when the context does not render (a [userContext] that is not
    an object, an account number that is not a string, an amount that is
    not a number), the route answers 500 with the text of the exception
    and the model is not called. *)
Theorem chat_route_bad_context (d : list (str * value)) (m : value)
    (e : exn) (log : list request) :
  dict_get d (lit "message") = Some m ->
  BankChatbot._build_context py_repr (field d (lit "userContext") (VDict []))
  = Raise e ->
  chat endpoint py_repr exn_str (json_request (VDict d)) log
  = (Return (VDict [(lit "error",
                     VStr (lit "Chat service error: " ++ exn_str e))],
             500%Z), log).
Proof.
  intros Hm Hblock.
  rewrite (chat_route_delegates d m log Hm).
  unfold try_except, bindM, ret, BankChatbot.chat, bindM, lift.
  rewrite Hblock. reflexivity.
Qed.

(** X15: for every object with a [message] entry, whatever the history,
    the context and the model do, the route returns: with 200 and a
    [reply], or with 500 and an [error] text; it never raises, and it
    makes at most one call. *)
Theorem chat_route_total (d : list (str * value)) (m : value)
    (log : list request) :
  dict_get d (lit "message") = Some m ->
  exists body status log',
    chat endpoint py_repr exn_str (json_request (VDict d)) log
    = (Return (body, status), log')
    /\ ((status = 200%Z /\ exists reply, body = VDict [(lit "reply", VStr reply)])
        \/ (status = 500%Z
            /\ exists e,
                body = VDict [(lit "error",
                               VStr (lit "Chat service error: " ++ exn_str e))]))
    /\ (log' = log \/ exists req, log' = log ++ [req]).
Proof.
  intros Hm. rewrite (chat_route_delegates d m log Hm).
  unfold try_except, bindM at 1, ret.
  pose proof (chatbot_chat_log m
                (field d (lit "conversationHistory") (VList []))
                (field d (lit "userContext") (VDict [])) log) as Hlog.
  destruct (BankChatbot.chat endpoint py_repr m _ _ log)
    as [[reply|e] log'] eqn:Hrun; cbn [snd] in Hlog.
  - eexists _, _, _. split; [reflexivity|]. split; [|exact Hlog].
    left. split; [reflexivity | now exists reply].
  - eexists _, _, _. split; [reflexivity|]. split; [|exact Hlog].
    right. split; [reflexivity | now exists e].
Qed.

End ChatMore.

(* ================================================================== *)
(** * Further properties of the rendering *)
(* ================================================================== *)

(** ** Amounts *)

Lemma round_half_even_exact (q d : Z) :
  (0 < d)%Z -> round_half_even (q * d) d = q.
Proof.
  intros Hd. unfold round_half_even.
  rewrite Z.mod_mul by lia. rewrite Z.div_mul by lia.
  assert (E : (2 * 0 ?= d)%Z = Lt) by (apply Z.compare_lt_iff; lia).
  now rewrite E.
Qed.

(** Dividing an integer by a power of two with an exponent that is not
    positive multiplies it. *)
Lemma scale_nonpos (num e : Z) :
  (e <= 0)%Z ->
  exists n d,
    scale num 1 e = (n, d) /\ (0 < d)%Z /\ n = (num * 2 ^ (- e) * d)%Z.
Proof.
  intros He. unfold scale. destruct (0 <=? e)%Z eqn:E.
  - apply Z.leb_le in E. assert (e = 0%Z) by lia. subst e.
    exists num, 1%Z. repeat split; simpl; lia.
  - exists (num * 2 ^ (- e))%Z, 1%Z. repeat split; lia.
Qed.

Lemma scale_nonneg (num e : Z) :
  (0 <= e)%Z -> scale num 1 e = (num, (1 * 2 ^ e)%Z).
Proof.
  intros He. unfold scale.
  destruct (0 <=? e)%Z eqn:E; [reflexivity|].
  apply Z.leb_gt in E. lia.
Qed.

(** A positive integer below [2^53] is a float, exactly. *)
Lemma float_of_ratio_int (neg : bool) (n : Z) :
  (0 < n < 2 ^ 53)%Z ->
  float_of_ratio neg n 1
  = FNum neg (Z.to_pos (n * 2 ^ (52 - Z.log2 n))) (Z.log2 n - 52).
Proof.
  intros [Hpos Hlt].
  pose proof (Z.log2_spec n Hpos) as [Hlo Hhi].
  pose proof (Z.log2_nonneg n) as Hl0.
  assert (Hl : (Z.log2 n < 53)%Z).
  { apply Z.log2_lt_pow2; [exact Hpos | exact Hlt]. }
  set (l := Z.log2 n) in *.
  assert (Hp1 : (2 ^ (53 - l) * 2 ^ l = 2 ^ 53)%Z)
    by (rewrite <- Z.pow_add_r by lia; f_equal; lia).
  assert (Hp2 : (2 ^ (52 - l) * 2 ^ Z.succ l = 2 ^ 53)%Z)
    by (rewrite <- Z.pow_add_r by lia; f_equal; lia).
  assert (Hk1 : (0 < 2 ^ (53 - l))%Z) by (apply Z.pow_pos_nonneg; lia).
  assert (Hk2 : (0 < 2 ^ (52 - l))%Z) by (apply Z.pow_pos_nonneg; lia).
  unfold float_of_ratio.
  replace (n =? 0)%Z with false by (symmetry; apply Z.eqb_neq; lia).
  cbv zeta. fold l. change (Z.log2 1) with 0%Z.
  replace (Z.max (l - 0 - 53) (-1074)) with (l - 53)%Z by lia.
  destruct (scale_nonpos n (l - 53)) as (n0 & d0 & E0 & Hd0 & Hn0); [lia|].
  rewrite E0.
  assert (Hq0 : (n0 / d0 = n * 2 ^ (53 - l))%Z).
  { rewrite Hn0, Z.div_mul by lia. f_equal. f_equal. lia. }
  rewrite Hq0.
  replace (2 ^ 53 <=? n * 2 ^ (53 - l))%Z with true
    by (symmetry; apply Z.leb_le; nia).
  destruct (scale_nonpos n (l - 53 + 1)) as (n1 & d1 & E1 & Hd1 & Hn1); [lia|].
  rewrite E1.
  replace (- (l - 53 + 1))%Z with (52 - l)%Z in Hn1 by lia.
  rewrite Hn1, round_half_even_exact by exact Hd1.
  replace (n * 2 ^ (52 - l) =? 2 ^ 53)%Z with false
    by (symmetry; apply Z.eqb_neq; nia).
  replace (n * 2 ^ (52 - l) =? 0)%Z with false
    by (symmetry; apply Z.eqb_neq; nia).
  replace (971 <? l - 53 + 1)%Z with false
    by (symmetry; apply Z.ltb_ge; lia).
  f_equal. lia.
Qed.

Lemma fixed2_int (n : Z) :
  (0 < n < 2 ^ 53)%Z ->
  fixed2 (Z.to_pos (n * 2 ^ (52 - Z.log2 n))) (Z.log2 n - 52)
  = digits (Z.to_N n) ++ lit ".00".
Proof.
  intros [Hpos Hlt].
  pose proof (Z.log2_nonneg n) as Hl0.
  assert (Hl : (Z.log2 n < 53)%Z).
  { apply Z.log2_lt_pow2; [exact Hpos | exact Hlt]. }
  set (l := Z.log2 n) in *.
  assert (Hk : (0 < 2 ^ (52 - l))%Z) by (apply Z.pow_pos_nonneg; lia).
  unfold fixed2. rewrite Z2Pos.id by nia.
  replace (- (l - 52))%Z with (52 - l)%Z by lia.
  rewrite scale_nonneg by lia.
  replace (100 * (n * 2 ^ (52 - l)))%Z
    with (100 * n * (1 * 2 ^ (52 - l)))%Z by lia.
  rewrite round_half_even_exact by lia.
  replace (Z.to_N (100 * n)) with (Z.to_N n * 100)%N by lia.
  rewrite N.div_mul, N.Div0.mod_mul by discriminate.
  reflexivity.
Qed.

Lemma format_2f_int (plus : bool) (z : Z) :
  (Z.abs z < 2 ^ 53)%Z ->
  format_2f plus (VInt z)
  = Return (sign_text plus (z <? 0)%Z
            ++ digits (Z.to_N (Z.abs z)) ++ lit ".00").
Proof.
  intros Hz. destruct (Z.eq_dec z 0) as [->|Hnz]; [reflexivity|].
  assert (Hn : (0 < Z.abs z < 2 ^ 53)%Z) by lia.
  unfold format_2f, float_of_int.
  rewrite (float_of_ratio_int _ _ Hn). cbn [bind format_float].
  now rewrite (fixed2_int _ Hn).
Qed.

(** X16: an integer amount of magnitude below [2^53] is shown exactly:
    its decimal digits followed by [.00], with a minus sign when it is
    negative and, for the signed format of transaction amounts, a plus
    sign when it is not. *)
Theorem format_2f_int_exact (z : Z) :
  (Z.abs z < 2 ^ 53)%Z ->
  format_2f false (VInt z) = Return (int_text z ++ lit ".00")
  /\ format_2f true (VInt z)
     = Return ((if (z <? 0)%Z then MINUS else PLUS)
               ++ digits (Z.to_N (Z.abs z)) ++ lit ".00").
Proof.
  intros Hz. split; rewrite (format_2f_int _ z Hz); unfold sign_text, int_text.
  - destruct (z <? 0)%Z eqn:E.
    + apply Z.ltb_lt in E. rewrite <- app_assoc.
      now replace (Z.abs z) with (- z)%Z by lia.
    + apply Z.ltb_ge in E. now replace (Z.abs z) with z by lia.
  - reflexivity.
Qed.

Lemma format_2f_int_exact_witness :
  format_2f false (VInt (-20)) = Return (lit "-20.00")
  /\ format_2f true (VInt (-20)) = Return (lit "-20.00").
Proof.
  apply (format_2f_int_exact (-20)). vm_compute. reflexivity.
Defined.

Lemma two_digits_shape (r : N) :
  (r < 100)%N ->
  length (two_digits r) = 2%nat /\ all_digits (two_digits r) = true.
Proof.
  intros H. apply (below_enumerated 100) in H.
  assert (Hall : forallb (fun r => (length (two_digits r) =? 2)%nat
                                   && all_digits (two_digits r))
                   (map N.of_nat (seq 0 100)) = true)
    by (vm_compute; reflexivity).
  apply (proj1 (forallb_forall _ _) Hall) in H.
  apply andb_true_iff in H as [H1 H2].
  split; [now apply Nat.eqb_eq | exact H2].
Qed.

Lemma float_of_ratio_not_nan (neg : bool) (num den : Z) :
  float_of_ratio neg num den <> FNan.
Proof.
  unfold float_of_ratio. destruct (num =? 0)%Z; [discriminate|]. cbv zeta.
  destruct (scale num den (Z.max (Z.log2 num - Z.log2 den - 53) (-1074)))
    as [n0 d0].
  destruct (scale num den _) as [n1 d1].
  destruct (round_half_even n1 d1 =? 2 ^ 53)%Z.
  - destruct (2 ^ 52 =? 0)%Z; [discriminate|].
    destruct (971 <? _)%Z; discriminate.
  - destruct (round_half_even n1 d1 =? 0)%Z; [discriminate|].
    destruct (971 <? _)%Z; discriminate.
Qed.

Lemma format_float_shape (plus : bool) (f : pyfloat) :
  two_decimals (format_float plus f)
  \/ (exists neg, f = FInf neg) \/ f = FNan.
Proof.
  destruct f as [neg|neg| |neg m e].
  - left. exists (sign_text plus neg ++ lit "0"), (lit "00").
    rewrite <- app_assoc. repeat split.
  - right. left. now exists neg.
  - right. now right.
  - left. cbn [format_float]. unfold fixed2.
    destruct (scale (100 * Z.pos m) 1 (- e)) as [n d].
    set (c := Z.to_N (round_half_even n d)).
    exists (sign_text plus neg ++ digits (c / 100)), (two_digits (c mod 100)).
    rewrite <- app_assoc.
    destruct (two_digits_shape (c mod 100)) as [Hlen Hdig];
      [apply N.mod_lt; discriminate | auto].
Qed.

(** X17: an amount that is formatted at all is shown with exactly two
    decimals (a dot and two digits at the end), unless it is a float
    infinity or NaN. *)
Theorem format_2f_two_decimals (plus : bool) (x : value) (t : str) :
  format_2f plus x = Return t ->
  two_decimals t \/ (exists neg, x = VFloat (FInf neg)) \/ x = VFloat FNan.
Proof.
  assert (Hint : forall z t',
             (f <- float_of_int z ;; Return (format_float plus f)) = Return t' ->
             two_decimals t').
  { intros z t'. unfold float_of_int.
    destruct (float_of_ratio (z <? 0)%Z (Z.abs z) 1) as [neg|neg| |neg m e] eqn:E;
      cbn [bind]; intros H; try discriminate; apply Return_inj in H; subst t'.
    - destruct (format_float_shape plus (FZero neg)) as [H|[(n & H)|H]];
        [exact H | discriminate | discriminate].
    - destruct (format_float_shape plus FNan) as [H|[(n & H)|H]];
        [exact H | discriminate | ].
      now apply float_of_ratio_not_nan in E.
    - destruct (format_float_shape plus (FNum neg m e)) as [H|[(n & H)|H]];
        [exact H | discriminate | discriminate]. }
  destruct x as [|b|z|f| | |]; cbn [format_2f]; intros H; try discriminate.
  - left. exact (Hint _ _ H).
  - left. exact (Hint _ _ H).
  - apply Return_inj in H. subst t.
    destruct (format_float_shape plus f) as [H | [(n & ->) | ->]].
    + now left.
    + right. left. now exists n.
    + right. now right.
Qed.

Lemma format_2f_two_decimals_witness :
  two_decimals (lit "1520.50")
  \/ (exists neg, VFloat (float_of_decimal false 15205 (-1)) = VFloat (FInf neg))
  \/ VFloat (float_of_decimal false 15205 (-1)) = VFloat FNan.
Proof.
  apply (format_2f_two_decimals false
           (VFloat (float_of_decimal false 15205 (-1))) (lit "1520.50")).
  vm_compute. reflexivity.
Defined.

(** X18: the signed format of transaction amounts always begins with a
    plus or a minus sign. *)
Theorem format_2f_signed (x : value) (t : str) :
  format_2f true x = Return t ->
  exists rest, t = PLUS ++ rest \/ t = MINUS ++ rest.
Proof.
  assert (Hf : forall f, exists rest,
             format_float true f = PLUS ++ rest
             \/ format_float true f = MINUS ++ rest).
  { intros [neg|neg| |neg m e]; cbn [format_float]; unfold sign_text;
      try destruct neg; eexists; (now left) || (now right). }
  assert (Hint : forall z,
             (f <- float_of_int z ;; Return (format_float true f)) = Return t ->
             exists rest, t = PLUS ++ rest \/ t = MINUS ++ rest).
  { intros z. destruct (float_of_int z) as [f|e]; cbn [bind]; [|discriminate].
    intros H. apply Return_inj in H. subst t. apply Hf. }
  destruct x as [|b|z|f| | |]; cbn [format_2f]; intros H; try discriminate.
  - exact (Hint _ H).
  - exact (Hint _ H).
  - apply Return_inj in H. subst t. apply Hf.
Qed.

Lemma format_2f_signed_witness :
  exists rest, lit "+100.00" = PLUS ++ rest \/ lit "+100.00" = MINUS ++ rest.
Proof.
  apply (format_2f_signed (VInt 100) (lit "+100.00")). vm_compute. reflexivity.
Defined.

(** ** The block *)

Lemma mapM_Forall2 {A B} (f : A -> outcome B) (xs : list A) (ys : list B) :
  mapM f xs = Return ys -> Forall2 (fun x y => f x = Return y) xs ys.
Proof.
  revert ys; induction xs as [|x xs IH]; intros ys H.
  - apply Return_inj in H. subst ys. constructor.
  - cbn [mapM] in H. destruct (f x) as [y|e] eqn:Ex; [|discriminate].
    cbn [bind] in H. destruct (mapM f xs) as [ys'|e]; [|discriminate].
    apply Return_inj in H. subst ys. constructor; [exact Ex | now apply IH].
Qed.

Lemma mapM_total {A B} (f : A -> outcome B) (xs : list A) :
  Forall (fun x => exists y, f x = Return y) xs ->
  exists ys, mapM f xs = Return ys.
Proof.
  induction 1 as [|x xs (y & Hy) _ (ys & IH)].
  - now exists [].
  - exists (y :: ys). cbn [mapM]. now rewrite Hy, IH.
Qed.

Lemma last4_suffix {A} (l : list A) : exists hidden, l = hidden ++ last4 l.
Proof.
  exists (firstn (length l - 4) l). unfold last4. now rewrite firstn_skipn.
Qed.

Section BlockMore.

Variable py_repr : value -> str.

(** X19: the mask of an account never shows more than four characters of
    its number, and what it shows is the end of the number: it is three
    stars followed by a suffix of at most four characters. *)
Theorem masked_number_bound (acc : value) (masked : str) :
  BankChatbot.masked_number acc = Return masked ->
  exists d number hidden shown,
    acc = VDict d
    /\ field d (lit "accountNumber") (VStr []) = VStr number
    /\ number = hidden ++ shown
    /\ (length shown <= 4)%nat
    /\ masked = BankChatbot.STARS ++ shown.
Proof.
  unfold BankChatbot.masked_number.
  destruct acc as [| | | | | |d]; try discriminate.
  cbn [py_get bind]. fold (field d (lit "accountNumber") (VStr [])).
  destruct (field d (lit "accountNumber") (VStr [])) as [| | | |n| |] eqn:En;
    try discriminate.
  cbn [py_last4 bind py_str_concat]. intros H. apply Return_inj in H.
  subst masked. destruct (last4_suffix n) as (hidden & Hn).
  exists d, n, hidden, (last4 n).
  split; [reflexivity|]. split; [exact En|]. split; [exact Hn|].
  split; [apply last4_length | reflexivity].
Qed.

(** X20: a context without accounts and transactions (the entries are
    missing, or false as Python values: [null], [[]], the empty string,
    zero) renders to the single line with the customer name, which is
    [Customer] when [userName] is missing. *)
Theorem build_context_name_only (ctx : list (str * value)) :
  truthy (field ctx (lit "accounts") (VList [])) = false ->
  truthy (field ctx (lit "recentTransactions") (VList [])) = false ->
  BankChatbot._build_context py_repr (VDict ctx)
  = Return (lit "Customer: "
            ++ py_str py_repr (field ctx (lit "userName") (VStr (lit "Customer")))).
Proof.
  intros Ha Ht. unfold BankChatbot._build_context. cbn [py_get bind].
  fold (field ctx (lit "accounts") (VList [])).
  fold (field ctx (lit "recentTransactions") (VList [])).
  unfold BankChatbot.accounts_part, BankChatbot.transactions_part.
  rewrite Ha, Ht. reflexivity.
Qed.

(** X21: with a list of accounts and a list of transactions, the block
    is the customer line, then (if there are accounts) the accounts
    header and one line per account in the order given, then (if there
    are transactions) a header with their number and one line per
    transaction in the order given, joined by line breaks. *)
Theorem build_context_lines (ctx : list (str * value))
    (accounts transactions : list value) (block : str) :
  field ctx (lit "accounts") (VList []) = VList accounts ->
  field ctx (lit "recentTransactions") (VList []) = VList transactions ->
  BankChatbot._build_context py_repr (VDict ctx) = Return block ->
  exists account_lines transaction_lines,
    Forall2 (fun acc line => BankChatbot.account_line py_repr acc = Return line)
      accounts account_lines
    /\ Forall2 (fun tx line =>
                 BankChatbot.transaction_line py_repr tx = Return line)
         transactions transaction_lines
    /\ block
       = join [NEWLINE]
           ([lit "Customer: "
             ++ py_str py_repr
                  (field ctx (lit "userName") (VStr (lit "Customer")))]
            ++ match accounts with
               | [] => []
               | _ => (NEWLINE :: lit "Accounts:") :: account_lines
               end
            ++ match transactions with
               | [] => []
               | _ => (NEWLINE :: lit "Recent Transactions (last "
                       ++ digits (N.of_nat (length transactions))
                       ++ lit "):") :: transaction_lines
               end).
Proof.
  intros Ha Ht. unfold BankChatbot._build_context. cbn [py_get bind].
  fold (field ctx (lit "accounts") (VList [])).
  fold (field ctx (lit "recentTransactions") (VList [])).
  fold (field ctx (lit "userName") (VStr (lit "Customer"))).
  rewrite Ha, Ht.
  unfold BankChatbot.accounts_part, BankChatbot.transactions_part.
  cbn [truthy py_iter py_len bind].
  destruct accounts as [|a accounts'].
  - destruct transactions as [|t transactions'].
    + cbn [bind]. intros H. apply Return_inj in H. subst block.
      exists [], []. repeat split; constructor.
    + destruct (mapM (BankChatbot.transaction_line py_repr)
                  (t :: transactions')) as [tl|e] eqn:Et; [|discriminate].
      cbn [bind]. intros H. apply Return_inj in H. subst block.
      exists [], tl. repeat split; [constructor | now apply mapM_Forall2].
  - destruct (mapM (BankChatbot.account_line py_repr) (a :: accounts'))
      as [al|e] eqn:Ea; [|discriminate].
    cbn [bind].
    destruct transactions as [|t transactions'].
    + cbn [bind]. intros H. apply Return_inj in H. subst block.
      exists al, []. repeat split; [now apply mapM_Forall2 | constructor].
    + destruct (mapM (BankChatbot.transaction_line py_repr)
                  (t :: transactions')) as [tl|e] eqn:Et; [|discriminate].
      cbn [bind]. intros H. apply Return_inj in H. subst block.
      exists al, tl. repeat split; now apply mapM_Forall2.
Qed.

Lemma amount_ok_formats (plus : bool) (v : value) :
  amount_ok v -> exists t, format_2f plus v = Return t.
Proof.
  destruct v as [| |z|f| | |]; cbn [amount_ok]; try contradiction.
  - intros Hz. rewrite (format_2f_int plus z Hz). eauto.
  - intros _. cbn [format_2f]. eauto.
Qed.

Lemma account_ok_renders (acc : value) :
  account_ok acc ->
  exists line, BankChatbot.account_line py_repr acc = Return line.
Proof.
  intros (d & -> & (n & Hn) & Hb).
  unfold BankChatbot.account_line, BankChatbot.masked_number.
  cbn [py_get bind]. fold (field d (lit "accountNumber") (VStr [])).
  rewrite Hn. cbn [py_last4 bind py_str_concat].
  fold (field d (lit "balance") (VInt 0)).
  destruct (amount_ok_formats false _ Hb) as (t & ->). cbn [bind]. eauto.
Qed.

Lemma transaction_ok_renders (tx : value) :
  transaction_ok tx ->
  exists line, BankChatbot.transaction_line py_repr tx = Return line.
Proof.
  intros (d & -> & Ha & Hb). unfold BankChatbot.transaction_line.
  cbn [py_get bind].
  fold (field d (lit "amount") (VInt 0)).
  fold (field d (lit "balanceAfter") (VInt 0)).
  destruct (amount_ok_formats true _ Ha) as (t & ->). cbn [bind].
  destruct (amount_ok_formats false _ Hb) as (t' & ->). cbn [bind]. eauto.
Qed.

(** X22: a context of the documented shape always renders: when the
    accounts are a list of dictionaries whose number is a string (or
    missing) and whose balance is a float or an integer below [2^53] (or
    missing), and the transactions are a list of dictionaries with such
    amounts, [_build_context] returns a block, whatever the other
    entries hold. *)
Theorem build_context_total (ctx : list (str * value))
    (accounts transactions : list value) :
  field ctx (lit "accounts") (VList []) = VList accounts ->
  field ctx (lit "recentTransactions") (VList []) = VList transactions ->
  Forall account_ok accounts ->
  Forall transaction_ok transactions ->
  exists block, BankChatbot._build_context py_repr (VDict ctx) = Return block.
Proof.
  intros Ha Ht Hacc Htx. unfold BankChatbot._build_context.
  cbn [py_get bind].
  fold (field ctx (lit "accounts") (VList [])).
  fold (field ctx (lit "recentTransactions") (VList [])).
  rewrite Ha, Ht.
  destruct (mapM_total (BankChatbot.account_line py_repr) accounts)
    as (al & Hal).
  { eapply Forall_impl; [|exact Hacc]. intros a. apply account_ok_renders. }
  destruct (mapM_total (BankChatbot.transaction_line py_repr) transactions)
    as (tl & Htl).
  { eapply Forall_impl; [|exact Htx]. intros t. apply transaction_ok_renders. }
  unfold BankChatbot.accounts_part, BankChatbot.transactions_part.
  cbn [truthy py_iter py_len bind]. rewrite Hal, Htl.
  destruct accounts, transactions; cbn [bind]; eauto.
Qed.

(** X23: a block is produced only if every account of the list is a
    dictionary whose account number is a string (or missing) and whose
    balance can be formatted as a number: an account number sent as a
    JSON number, for one, makes the rendering raise. *)
Theorem build_context_needs_string_numbers (ctx : list (str * value))
    (accounts : list value) (acc : value) (block : str) :
  dict_get ctx (lit "accounts") = Some (VList accounts) ->
  In acc accounts ->
  BankChatbot._build_context py_repr (VDict ctx) = Return block ->
  exists d number balance_text,
    acc = VDict d
    /\ field d (lit "accountNumber") (VStr []) = VStr number
    /\ format_2f false (field d (lit "balance") (VInt 0)) = Return balance_text.
Proof.
  intros Haccs Hin Hblock.
  destruct (build_context_account_line py_repr _ _ _ _ Haccs Hin Hblock)
    as (line & Hline & _).
  unfold BankChatbot.account_line in Hline.
  destruct (BankChatbot.masked_number acc) as [masked|e] eqn:Em;
    [|discriminate].
  unfold BankChatbot.masked_number in Em.
  destruct acc as [| | | | | |d]; try discriminate.
  cbn [py_get bind] in Em, Hline.
  fold (field d (lit "accountNumber") (VStr [])) in Em.
  fold (field d (lit "balance") (VInt 0)) in Hline.
  destruct (field d (lit "accountNumber") (VStr [])) as [| | | |n| |] eqn:En;
    try discriminate.
  destruct (format_2f false (field d (lit "balance") (VInt 0)))
    as [t|e] eqn:Eb; [|discriminate].
  exists d, n, t. split; [reflexivity|]. split; [exact En | exact Eb].
Qed.

End BlockMore.

(** ** Instances *)

Lemma chat_route_rejects_missing_message_witness :
  chat offline plain_repr plain_exn_str
    (json_request (VDict body_without_message)) []
  = (Return (VDict [(lit "error", VStr (lit "Missing 'message' field"))],
             400%Z), []).
Proof.
  apply (chat_route_rejects_missing_message offline plain_repr plain_exn_str).
  right. exists body_without_message. split; reflexivity.
Defined.

Lemma ali_context_renders :
  BankChatbot._build_context plain_repr (VDict ali_context) = Return ali_block.
Proof. vm_compute. reflexivity. Qed.

Lemma chat_route_reply_witness :
  chat answers_balance plain_repr plain_exn_str
    (json_request (VDict balance_question)) []
  = (Return (VDict [(lit "reply",
                     VStr (strip (NEWLINE :: lit " Your balance is 1520.50 USD. ")))],
             200%Z),
     [] ++ [BankChatbot.chat_request
              (expected_messages ali_block earlier_turns
                 (VStr (lit "What's my balance?")))]).
Proof.
  apply (chat_route_reply answers_balance plain_repr plain_exn_str
           balance_question (VStr (lit "What's my balance?"))
           earlier_turns earlier_turns ali_block).
  - reflexivity.
  - exact ali_context_renders.
  - reflexivity.
  - exact earlier_turns_are_turns.
  - reflexivity.
Defined.

Lemma chat_route_upstream_error_witness :
  chat offline plain_repr plain_exn_str
    (json_request (VDict balance_question)) []
  = (Return (VDict [(lit "error",
                     VStr (lit "Chat service error: "
                           ++ plain_exn_str (UpstreamError 503)))],
             500%Z),
     [] ++ [BankChatbot.chat_request
              (expected_messages ali_block earlier_turns
                 (VStr (lit "What's my balance?")))]).
Proof.
  apply (chat_route_upstream_error offline plain_repr plain_exn_str
           balance_question (VStr (lit "What's my balance?"))
           earlier_turns earlier_turns ali_block).
  - reflexivity.
  - exact ali_context_renders.
  - reflexivity.
  - exact earlier_turns_are_turns.
  - reflexivity.
Defined.

Lemma chat_route_bad_context_witness :
  chat answers_balance plain_repr plain_exn_str
    (json_request (VDict question_without_context)) []
  = (Return (VDict [(lit "error",
                     VStr (lit "Chat service error: "
                           ++ plain_exn_str AttributeError))],
             500%Z), []).
Proof.
  apply (chat_route_bad_context answers_balance plain_repr plain_exn_str
           question_without_context (VStr (lit "What's my balance?"))).
  - reflexivity.
  - reflexivity.
Defined.

Lemma chat_route_total_witness :
  exists body status log',
    chat offline plain_repr plain_exn_str
      (json_request (VDict question_without_context)) []
    = (Return (body, status), log')
    /\ ((status = 200%Z /\ exists reply, body = VDict [(lit "reply", VStr reply)])
        \/ (status = 500%Z
            /\ exists e,
                body = VDict [(lit "error",
                               VStr (lit "Chat service error: "
                                     ++ plain_exn_str e))]))
    /\ (log' = [] \/ exists req, log' = [] ++ [req]).
Proof.
  apply (chat_route_total offline plain_repr plain_exn_str
           question_without_context (VStr (lit "What's my balance?"))).
  reflexivity.
Defined.

Lemma masked_number_bound_witness :
  exists d number hidden shown,
    VDict checking_account = VDict d
    /\ field d (lit "accountNumber") (VStr []) = VStr number
    /\ number = hidden ++ shown
    /\ (length shown <= 4)%nat
    /\ lit "***7890" = BankChatbot.STARS ++ shown.
Proof.
  apply (masked_number_bound (VDict checking_account) (lit "***7890")).
  vm_compute. reflexivity.
Defined.

Lemma build_context_name_only_witness :
  BankChatbot._build_context plain_repr (VDict [])
  = Return (lit "Customer: "
            ++ py_str plain_repr (field [] (lit "userName") (VStr (lit "Customer")))).
Proof.
  apply (build_context_name_only plain_repr []); reflexivity.
Defined.

Lemma build_context_lines_witness :
  exists account_lines transaction_lines,
    Forall2 (fun acc line => BankChatbot.account_line plain_repr acc = Return line)
      [VDict checking_account] account_lines
    /\ Forall2 (fun tx line =>
                 BankChatbot.transaction_line plain_repr tx = Return line)
         [VDict coffee] transaction_lines
    /\ ali_block
       = join [NEWLINE]
           ([lit "Customer: "
             ++ py_str plain_repr
                  (field ali_context (lit "userName") (VStr (lit "Customer")))]
            ++ ((NEWLINE :: lit "Accounts:") :: account_lines)
            ++ ((NEWLINE :: lit "Recent Transactions (last "
                 ++ digits (N.of_nat (length [VDict coffee]))
                 ++ lit "):") :: transaction_lines)).
Proof.
  apply (build_context_lines plain_repr ali_context
           [VDict checking_account] [VDict coffee] ali_block).
  - reflexivity.
  - reflexivity.
  - exact ali_context_renders.
Defined.

Lemma checking_account_ok : account_ok (VDict checking_account).
Proof.
  exists checking_account. split; [reflexivity|]. split.
  - now exists FULL_NUMBER.
  - exact I.
Qed.

Lemma coffee_ok : transaction_ok (VDict coffee).
Proof.
  exists coffee. split; [reflexivity|]. split.
  - vm_compute. reflexivity.
  - exact I.
Qed.

Lemma build_context_total_witness :
  exists block,
    BankChatbot._build_context plain_repr (VDict ali_context) = Return block.
Proof.
  apply (build_context_total plain_repr ali_context
           [VDict checking_account] [VDict coffee]).
  - reflexivity.
  - reflexivity.
  - constructor; [exact checking_account_ok | constructor].
  - constructor; [exact coffee_ok | constructor].
Defined.

Lemma build_context_needs_string_numbers_witness :
  exists d number balance_text,
    VDict checking_account = VDict d
    /\ field d (lit "accountNumber") (VStr []) = VStr number
    /\ format_2f false (field d (lit "balance") (VInt 0)) = Return balance_text.
Proof.
  apply (build_context_needs_string_numbers plain_repr ali_context
           [VDict checking_account] (VDict checking_account) ali_block).
  - reflexivity.
  - left. reflexivity.
  - exact ali_context_renders.
Defined.
